(** * ShopperInsights: clickstream analytics (utils.py, main.py)

    A shallow embedding of the analytic functions of [utils.py] and of the
    upload handler of [main.py].  A data frame is a list of event rows (the
    nine required columns) plus the columns that the code adds by assignment;
    the pandas operators the code calls ([groupby], [nunique],
    [value_counts], [head], [shift], [sort_values], [to_dict]) are given as
    list functions; Python integers are [Z], Python floats are exact
    rationals [Q] (with a separate [NaN]), and Python exceptions are values of
    [exn] threaded by a small state-and-error monad whose state is the data
    frame object shared by caller and callee. *)

From Stdlib Require Import List String Ascii ZArith QArith Qround Bool Lia
  Permutation Sorted.
Import ListNotations.
Local Open Scope string_scope.
Local Open Scope list_scope.
Local Open Scope Z_scope.

(* ================================================================== *)
(** * Keys: the values pandas groups, counts and sorts by *)
(* ================================================================== *)

Class Key (K : Type) : Type := {
  keqb : K -> K -> bool;   (* ==  *)
  kleb : K -> K -> bool    (* <=, the order of a sorted index *)
}.

#[export] Instance Key_string : Key string :=
  {| keqb := String.eqb; kleb := String.leb |}.

#[export] Instance Key_Z : Key Z :=
  {| keqb := Z.eqb; kleb := Z.leb |}.

(** Tuples compare lexicographically, as the entries of a MultiIndex. *)
#[export] Instance Key_pair (A B : Type) `{Key A} `{Key B} : Key (A * B) :=
  {| keqb := fun x y => keqb (fst x) (fst y) && keqb (snd x) (snd y);
     kleb := fun x y =>
       if keqb (fst x) (fst y) then kleb (snd x) (snd y)
       else kleb (fst x) (fst y) |}.

(** The laws the instances satisfy (proved below). *)
Class KeyOk (K : Type) `{Key K} : Prop := {
  keqb_eq : forall a b : K, keqb a b = true <-> a = b
}.
Arguments KeyOk K {_}.

(* ================================================================== *)
(** * The pandas operators used by utils.py *)
(* ================================================================== *)

Section Pandas.
Context {K : Type} `{Key K}.

(** [len(x)] as a Python integer. *)
Definition len {A : Type} (l : list A) : Z := Z.of_nat (List.length l).

(** [Series.unique()]: the distinct values in order of first appearance. *)
Fixpoint unique (l : list K) : list K :=
  match l with
  | [] => []
  | x :: r => x :: filter (fun y => negb (keqb y x)) (unique r)
  end.

(** [Series.nunique()]. *)
Definition nunique (l : list K) : Z := len (unique l).

(** Number of entries of [l] equal to [k]. *)
Definition count (k : K) (l : list K) : Z :=
  len (filter (fun y => keqb y k) l).

(** A stable insertion sort; [le a b] says that [a] may stand before [b]. *)
Fixpoint insert_by {A : Type} (le : A -> A -> bool) (a : A) (l : list A)
  : list A :=
  match l with
  | [] => [a]
  | y :: r => if le a y then a :: y :: r else y :: insert_by le a r
  end.

Fixpoint sort_by {A : Type} (le : A -> A -> bool) (l : list A) : list A :=
  match l with
  | [] => []
  | a :: r => insert_by le a (sort_by le r)
  end.

(** [df.groupby(key)] with the default [sort=True]: one group per distinct
    key, groups in ascending key order, rows of a group in row order. *)
Definition groupby {A : Type} (key : A -> K) (df : list A)
  : list (K * list A) :=
  map (fun k => (k, filter (fun a => keqb (key a) k) df))
      (sort_by kleb (unique (map key df))).

(** [groupby(key).size()]: key -> number of rows, in ascending key order. *)
Definition groupby_size {A : Type} (key : A -> K) (df : list A)
  : list (K * Z) :=
  map (fun g => (fst g, len (snd g))) (groupby key df).

(** [Series.value_counts()]: value -> number of occurrences, by descending
    count; equal counts keep the order of first appearance. *)
Definition value_counts (l : list K) : list (K * Z) :=
  sort_by (fun a b : K * Z => snd b <=? snd a)
          (map (fun k => (k, count k l)) (unique l)).

(** [.head(n)]. *)
Definition head {A : Type} (n : nat) (l : list A) : list A := firstn n l.

(** Label lookup [series[k]] in a mapping kept as an association list. *)
Fixpoint lookup {V : Type} (k : K) (d : list (K * V)) : option V :=
  match d with
  | [] => None
  | (k', v) :: r => if keqb k' k then Some v else lookup k r
  end.

(** [d[k] = v] on a Python dict: an existing key keeps its position and
    takes the new value, a new key is appended. *)
Fixpoint dict_set {V : Type} (k : K) (v : V) (d : list (K * V))
  : list (K * V) :=
  match d with
  | [] => [(k, v)]
  | (k', v') :: r =>
      if keqb k' k then (k', v) :: r else (k', v') :: dict_set k v r
  end.

(** A dict comprehension [{k: v for ...}] over the items in order. *)
Definition dict_of {V : Type} (items : list (K * V)) : list (K * V) :=
  fold_left (fun d kv => dict_set (fst kv) (snd kv) d) items [].

End Pandas.
Arguments head {A} n l : simpl never.

(** Python floats, as exact rationals, and the not-a-number value. *)
Inductive pyfloat : Type :=
| Fl (q : Q)
| NaN.

(** The numbers of a column, NaN skipped. *)
Fixpoint numbers (l : list pyfloat) : list Q :=
  match l with
  | [] => []
  | Fl q :: r => q :: numbers r
  | NaN :: r => numbers r
  end.

Definition Qsum (l : list Q) : Q := fold_right Qplus 0%Q l.

(** [Series.mean()]: NaN entries are skipped, the mean of nothing is NaN. *)
Definition mean (l : list pyfloat) : pyfloat :=
  match numbers l with
  | [] => NaN
  | x :: r => Fl (Qsum (x :: r) / inject_Z (len (x :: r)))
  end.

Definition of_int (z : Z) : pyfloat := Fl (inject_Z z).

(** [round(x, 2)]: to two decimals, halves to the even neighbour. *)
Definition round_half_even (x : Q) : Z :=
  let f := Qfloor x in
  let r := (x - inject_Z f)%Q in
  match Qcompare r (1 # 2) with
  | Lt => f
  | Gt => f + 1
  | Eq => if Z.even f then f else f + 1
  end.

Definition round2 (x : pyfloat) : pyfloat :=
  match x with
  | Fl q => Fl (inject_Z (round_half_even (q * 100)) / 100)
  | NaN => NaN
  end.

(* ================================================================== *)
(** * Data model *)
(* ================================================================== *)

(** One row of the clickstream table: the nine required columns.
    [Timestamp] is the instant in nanoseconds, as pandas keeps it. *)
Record Event : Type := mkEvent {
  User_ID : string;
  Session_ID : string;
  Timestamp : Z;
  Page_Type : string;
  Product_ID : string;
  Category : string;
  Action : string;
  Device_Type : string;
  Platform : string
}.

(** A value of a column that is not one of the nine typed ones. *)
Inductive cell : Type :=
| CStr (s : string)
| CInt (z : Z)
| CTime (ns : Z)
| CNaN.

(** A table as named columns (what [read_csv] returns). *)
Definition Frame : Type := list (string * list cell).

(** The validated event table: its rows, and the columns added to the same
    object by assignments [df[name] = ...]. *)
Record DataFrame : Type := mkDF {
  rows : list Event;
  added : Frame
}.

(** Exceptions.  [LibraryError] stands for what pandas or scikit-learn raise
    from inside their routines.  [InsufficientDataError] is the kind the
    specification names; no statement of utils.py or main.py raises it. *)
Inductive exn : Type :=
| ZeroDivisionError
| KeyError (key : string)
| LibraryError (msg : string)
| InsufficientDataError.

(** [str(e)]. *)
Definition str (e : exn) : string :=
  match e with
  | ZeroDivisionError => "division by zero"
  | KeyError key => key
  | LibraryError msg => msg
  | InsufficientDataError => ""
  end.

(* ================================================================== *)
(** * Computations over the shared data frame *)
(* ================================================================== *)

(** A Python function called with the frame [df]: it ends with a value or an
    exception, and leaves the frame object in some state. *)
Definition Py (A : Type) : Type := DataFrame -> (exn + A) * DataFrame.

Definition ret {A : Type} (a : A) : Py A := fun df => (inr a, df).

Definition bind {A B : Type} (m : Py A) (f : A -> Py B) : Py B :=
  fun df =>
    match m df with
    | (inl e, df') => (inl e, df')
    | (inr a, df') => f a df'
    end.

Definition raise {A : Type} (e : exn) : Py A := fun df => (inl e, df).

(** Reading [df]. *)
Definition frame : Py DataFrame := fun df => (inr df, df).

(** [df[name] = col]. *)
Definition setitem (name : string) (col : list cell) : Py unit :=
  fun df => (inr tt, mkDF (rows df) (dict_set name col (added df))).

(** The outcome of a library call. *)
Definition lift {A : Type} (r : exn + A) : Py A :=
  match r with
  | inl e => raise e
  | inr a => ret a
  end.

Notation "x <- m ;; k" := (bind m (fun x => k))
  (at level 61, m at next level, right associativity).
Notation "m ;;; k" := (bind m (fun _ => k))
  (at level 61, right associativity).

(** [a / b] on Python integers. *)
Definition truediv (a b : Z) : Py Q :=
  if b =? 0 then raise ZeroDivisionError
  else ret (inject_Z a / inject_Z b)%Q.

(** [series[k]]: a missing label raises [KeyError]. *)
Definition getitem {V : Type} (repr : string) (k : Z) (s : list (Z * V))
  : Py V :=
  match lookup k s with
  | Some v => ret v
  | None => raise (KeyError repr)
  end.

(** The body of a comprehension evaluated item by item. *)
Fixpoint for_each {A B : Type} (f : A -> Py B) (l : list A) : Py (list B) :=
  match l with
  | [] => ret []
  | a :: r => b <- f a ;; bs <- for_each f r ;; ret (b :: bs)
  end.

(** The result and the final frame of a call. *)
Definition result {A : Type} (m : Py A) (df : DataFrame) : exn + A :=
  fst (m df).
Definition frame_after {A : Type} (m : Py A) (df : DataFrame) : DataFrame :=
  snd (m df).

(** The rows of [df] paired with the column [name] added earlier. *)
Definition with_column (name : string) (df : DataFrame)
  : list (Event * cell) :=
  combine (rows df)
          (match lookup name (added df) with Some c => c | None => [] end).

(* ================================================================== *)
(** * utils.py *)
(* ================================================================== *)

Definition required_columns : list string :=
  ["User_ID"; "Session_ID"; "Timestamp"; "Page_Type"; "Product_ID";
   "Category"; "Action"; "Device_Type"; "Platform"].

Definition missing_columns_message : string :=
  "Missing required columns in the clickstream data".

Definition error_loading_message (e : exn) : string :=
  ("Error loading data: " ++ str e)%string.

Section Loader.
(** The CSV parser and the timestamp parser are pandas'. *)
Variable File : Type.
Variable read_csv : File -> exn + Frame.
Variable to_datetime : list cell -> exn + list Z.

(** The statements inside [try]. *)
Definition load_body (file : File) : exn + (option Frame * option string) :=
  match read_csv file with
  | inl e => inl e
  | inr df =>
      if negb (forallb (fun col => existsb (String.eqb col) (map fst df))
                       required_columns)
      then inr (None, Some missing_columns_message)
      else
        match lookup "Timestamp" df with
        | None => inl (KeyError "'Timestamp'")
        | Some ts =>
            match to_datetime ts with
            | inl e => inl e
            | inr t => inr (Some (dict_set "Timestamp" (map CTime t) df), None)
            end
        end
  end.

Definition load_and_validate_data (file : File)
  : option Frame * option string :=
  match load_body file with
  | inr r => r
  | inl e => (None, Some (error_loading_message e))
  end.

(** main.py, the branch taken once a file is uploaded: what is shown and
    which analytic functions are called, in order. *)
Inductive step : Type :=
| st_error (msg : string)
| st_info (msg : string)
| call_analyze_clickstream (df : option Frame)
| call_analyze_conversion_funnel (df : option Frame)
| call_analyze_session_metrics (df : option Frame).

(** [if error:] on a value that is [None] or a string. *)
Definition truthy (error : option string) : bool :=
  match error with
  | None => false
  | Some s => negb (s =? "")%string
  end.

Definition upload_handler (uploaded_file : option File) : list step :=
  match uploaded_file with
  | Some file =>
      let '(df, error) := load_and_validate_data file in
      if truthy error then
        [st_error (match error with Some s => s | None => "" end)]
      else
        [call_analyze_clickstream df;
         call_analyze_conversion_funnel df;
         call_analyze_session_metrics df]
  | None => [st_info "Please upload a CSV file with clickstream data."]
  end.

Definition is_analysis (s : step) : bool :=
  match s with
  | st_error _ | st_info _ => false
  | _ => true
  end.
End Loader.

(** ** calculate_key_metrics *)

Record Metrics : Type := mkMetrics {
  total_users : Z;
  total_sessions : Z;
  conversion_rate : Q;
  avg_pages_per_session : pyfloat;
  bounce_rate : Q
}.

(** [df.groupby('Session_ID').size()] as a column of sizes. *)
Definition session_sizes (df : list Event) : list Z :=
  map snd (groupby_size Session_ID df).

Definition calculate_key_metrics : Py Metrics :=
  df <- frame ;;
  let df := rows df in
  let users := nunique (map User_ID df) in
  let sessions := nunique (map Session_ID df) in
  let buyers :=
    nunique (map User_ID (filter (fun e => Action e =? "Purchase")%string df)) in
  c <- truediv buyers (nunique (map User_ID df)) ;;
  let avg := mean (map of_int (session_sizes df)) in
  single <- getitem "1" 1 (value_counts (session_sizes df)) ;;
  b <- truediv single (len (unique (map Session_ID df))) ;;
  ret (mkMetrics users sessions (c * 100)%Q avg (b * 100)%Q).

(** ** analyze_user_behavior *)

Record Behavior : Type := mkBehavior {
  device_usage : list (string * Z);
  category_popularity : list (string * Z);
  action_dist : list (string * Z);
  platform_dist : list (string * Z);
  hourly_activity : list (Z * Z)
}.

(** [Timestamp.dt.hour] of an instant in nanoseconds. *)
Definition hour (ns : Z) : Z := (ns / 3600000000000) mod 24.

Definition ints (col : list cell) : list Z :=
  flat_map (fun c => match c with CInt z => [z] | _ => [] end) col.

Definition analyze_user_behavior : Py Behavior :=
  df <- frame ;;
  let device_usage := value_counts (map Device_Type (rows df)) in
  let category_popularity := head 5 (value_counts (map Category (rows df))) in
  let action_dist := value_counts (map Action (rows df)) in
  let platform_dist := value_counts (map Platform (rows df)) in
  setitem "Hour" (map (fun e => CInt (hour (Timestamp e))) (rows df)) ;;;
  df <- frame ;;
  let hourly_activity :=
    groupby_size (fun h : Z => h) (ints (map snd (with_column "Hour" df))) in
  ret (mkBehavior device_usage category_popularity action_dist platform_dist
                  hourly_activity).

(** ** analyze_clickstream *)

Record SessionStats : Type := mkSessionStats {
  duration_seconds : pyfloat;
  page_views : Z;
  unique_actions : Z
}.

Definition series_max (l : list Z) : option Z :=
  match l with
  | [] => None
  | x :: r => Some (fold_left Z.max r x)
  end.

Definition series_min (l : list Z) : option Z :=
  match l with
  | [] => None
  | x :: r => Some (fold_left Z.min r x)
  end.

(** [lambda x: (x.max() - x.min()).total_seconds()] on a timestamp column. *)
Definition span_seconds (x : list Z) : pyfloat :=
  match series_max x, series_min x with
  | Some hi, Some lo => Fl ((hi - lo) # 1000000000)
  | _, _ => NaN
  end.

Definition session_stats (df : list Event) : list (string * SessionStats) :=
  map (fun g =>
         (fst g,
          mkSessionStats (span_seconds (map Timestamp (snd g)))
                         (len (map Page_Type (snd g)))
                         (nunique (map Action (snd g)))))
      (groupby Session_ID df).

(** ['->'.join(x)]. *)
Definition join_arrow (x : list string) : string := String.concat "->" x.

(** The joined [field] of every session, sessions in index order. *)
Definition session_strings (field : Event -> string) (df : list Event)
  : list string :=
  map (fun g => join_arrow (map field (snd g))) (groupby Session_ID df).

(** [df.groupby('Session_ID')['Page_Type'].shift(-1)]: for every row, the
    page type of the next row of the same session, if there is one. *)
Fixpoint shift_next (df : list Event) : list (option string) :=
  match df with
  | [] => []
  | e :: r =>
      option_map Page_Type
        (find (fun e' => (Session_ID e' =? Session_ID e)%string) r)
      :: shift_next r
  end.

Definition to_cell (o : option string) : cell :=
  match o with
  | Some s => CStr s
  | None => CNaN
  end.

(** The rows with [next_page] not null, as their (Page_Type, next_page). *)
Definition transition_rows (df : list (Event * cell))
  : list (string * string) :=
  flat_map (fun r => match snd r with
                     | CStr nx => [(Page_Type (fst r), nx)]
                     | _ => []
                     end) df.

Record ClickRow : Type := mkClickRow {
  cr_Category : string;
  cr_Page_Type : string;
  clicks : Z;
  is_electronics : bool
}.

(** [groupby(['Category','Page_Type']).size().reset_index(name='clicks')]
    with the column [is_electronics] added. *)
Definition click_counts (clicks_df : list Event) : list ClickRow :=
  map (fun g => mkClickRow (fst (fst g)) (snd (fst g)) (snd g)
                           (fst (fst g) =? "Electronics")%string)
      (groupby_size (fun e => (Category e, Page_Type e)) clicks_df).

(** [sort_values(['is_electronics','clicks'], ascending=[False, False])]:
    [a] may stand before [b]. *)
Definition click_order (a b : ClickRow) : bool :=
  if Bool.eqb (is_electronics a) (is_electronics b)
  then clicks b <=? clicks a
  else is_electronics a.

Definition click_label (row : ClickRow) : string :=
  (cr_Category row ++ " - " ++ cr_Page_Type row)%string.

(** The rows the dict comprehension iterates over. *)
Definition kept_click_rows (df : list Event) : list ClickRow :=
  head 10 (sort_by click_order
             (click_counts (filter (fun e => Action e =? "Click")%string df))).

Record Clickstream : Type := mkClickstream {
  avg_session_duration : pyfloat;
  avg_page_views : pyfloat;
  common_paths : list (string * Z);
  action_sequences : list (string * Z);
  top_transitions : list ((string * string) * Z);
  click_patterns : list (string * Z)
}.

(** The unabridged transition table, from the frame with [next_page]. *)
Definition transitions_of (df : DataFrame) : list ((string * string) * Z) :=
  groupby_size (fun p : string * string => p)
               (transition_rows (with_column "next_page" df)).

Definition analyze_clickstream : Py Clickstream :=
  df <- frame ;;
  let session_stats := session_stats (rows df) in
  let path_analysis :=
    head 10 (value_counts (session_strings Page_Type (rows df))) in
  let action_sequences :=
    head 10 (value_counts (session_strings Action (rows df))) in
  setitem "next_page" (map to_cell (shift_next (rows df))) ;;;
  df <- frame ;;
  let transitions := transitions_of df in
  let click_patterns :=
    dict_of (map (fun row => (click_label row, clicks row))
                 (kept_click_rows (rows df))) in
  ret (mkClickstream
         (mean (map (fun s => duration_seconds (snd s)) session_stats))
         (mean (map (fun s => of_int (page_views (snd s))) session_stats))
         path_analysis action_sequences (head 10 transitions) click_patterns).

(** ** analyze_conversion_funnel *)

Definition stage_sessions (action : string) (df : list Event) : Z :=
  nunique (map Session_ID (filter (fun e => Action e =? action)%string df)).

Definition funnel_stages_of (df : list Event) : list (string * Z) :=
  [("View", stage_sessions "View" df);
   ("Click", stage_sessions "Click" df);
   ("Add to Cart", stage_sessions "Add to Cart" df);
   ("Purchase", stage_sessions "Purchase" df)].

Definition analyze_conversion_funnel
  : Py (list (string * Z) * list (string * Q)) :=
  df <- frame ;;
  let total_sessions := nunique (map Session_ID (rows df)) in
  let funnel_stages := funnel_stages_of (rows df) in
  items <- for_each (fun sc =>
                       q <- truediv (snd sc) total_sessions ;;
                       ret (fst sc, (q * 100)%Q))
                    funnel_stages ;;
  ret (funnel_stages, dict_of items).

(** ** analyze_session_metrics *)

Record SessionMetrics : Type := mkSessionMetrics {
  avg_time_by_page : list (string * pyfloat);
  top_entry_pages : list (string * Z);
  top_exit_pages : list (string * Z);
  depth_distribution : list (Z * Z)
}.

(** [GroupBy.first()] and [GroupBy.last()] of a column: per session, the
    first and the last value in row order (null for a group without rows). *)
Definition group_first (field : Event -> string) (df : list Event)
  : list (string * option string) :=
  map (fun g => (fst g, hd_error (map field (snd g))))
      (groupby Session_ID df).

Definition group_last (field : Event -> string) (df : list Event)
  : list (string * option string) :=
  map (fun g => (fst g, hd_error (rev (map field (snd g)))))
      (groupby Session_ID df).

(** The values that are not null. *)
Definition dropna (l : list (option string)) : list string :=
  flat_map (fun o => match o with Some s => [s] | None => [] end) l.

Definition analyze_session_metrics : Py SessionMetrics :=
  df <- frame ;;
  let df := rows df in
  let time_on_page :=
    mean (map (fun g => span_seconds (map Timestamp (snd g)))
              (groupby Page_Type df)) in
  let entry_pages :=
    value_counts (dropna (map snd (group_first Page_Type df))) in
  let exit_pages :=
    value_counts (dropna (map snd (group_last Page_Type df))) in
  let session_depth := value_counts (session_sizes df) in
  ret (mkSessionMetrics [("Timestamp", time_on_page)]
                        (head 5 entry_pages) (head 5 exit_pages)
                        (head 10 session_depth)).

(** ** segment_users *)

Section Segmentation.
(** [StandardScaler().fit_transform] and
    [KMeans(n_clusters=4, random_state=42).fit_predict] are scikit-learn's:
    each returns its value or raises from inside the library. *)
Variable Scaled : Type.
Variable fit_transform : list (list Z) -> exn + Scaled.
Variable fit_predict : Scaled -> exn + list Z.

(** One row per user: sessions, purchases, categories, platforms. *)
Definition user_features_of (df : list Event) : list (string * list Z) :=
  map (fun g =>
         (fst g,
          [nunique (map Session_ID (snd g));
           len (filter (fun e => Action e =? "Purchase")%string (snd g));
           nunique (map Category (snd g));
           nunique (map Platform (snd g))]))
      (groupby User_ID df).

(** [user_features.groupby('Segment').mean().round(2)]. *)
Definition segment_profile_of (user_features : list (string * list Z * Z))
  : list (Z * list pyfloat) :=
  map (fun g =>
         (fst g,
          map (fun i =>
                 round2 (mean (map (fun u => of_int (nth i (snd (fst u)) 0))
                                   (snd g))))
              [0%nat; 1%nat; 2%nat; 3%nat]))
      (groupby (fun u : string * list Z * Z => snd u) user_features).

Definition segment_users
  : Py (list (string * list Z * Z) * list (Z * list pyfloat)) :=
  df <- frame ;;
  let user_features := user_features_of (rows df) in
  features_scaled <- lift (fit_transform (map snd user_features)) ;;
  segment <- lift (fit_predict features_scaled) ;;
  if (List.length segment =? List.length user_features)%nat then
    let user_features := combine user_features segment in
    ret (user_features, segment_profile_of user_features)
  else
    raise (LibraryError "Length of values does not match length of index").
End Segmentation.
Arguments segment_users {Scaled} fit_transform fit_predict.

(** The analytic passes and what each returns. *)
Inductive pass : Type :=
| SessionAggregator      (* analyze_session_metrics *)
| PathSequenceMiner      (* analyze_clickstream *)
| FunnelAnalyzer         (* analyze_conversion_funnel *)
| SegmentationEngine.    (* segment_users *)

Inductive output : Type :=
| OutSession (m : SessionMetrics)
| OutClickstream (c : Clickstream)
| OutFunnel (f : list (string * Z) * list (string * Q))
| OutSegments (s : list (string * list Z * Z) * list (Z * list pyfloat)).

Section Passes.
Variable Scaled : Type.
Variable fit_transform : list (list Z) -> exn + Scaled.
Variable fit_predict : Scaled -> exn + list Z.

Definition run_pass (p : pass) : Py output :=
  match p with
  | SessionAggregator => m <- analyze_session_metrics ;; ret (OutSession m)
  | PathSequenceMiner => c <- analyze_clickstream ;; ret (OutClickstream c)
  | FunnelAnalyzer => f <- analyze_conversion_funnel ;; ret (OutFunnel f)
  | SegmentationEngine =>
      s <- segment_users fit_transform fit_predict ;; ret (OutSegments s)
  end.
End Passes.
Arguments run_pass {Scaled} fit_transform fit_predict p.

(** ** analyze_product_sales *)

Record ProductSales : Type := mkProductSales {
  top_products : list (string * Z);
  category_sales : list (string * Z);
  monthly_sales : list (string * Z);
  platform_sales : list (string * Z)
}.

(** [Series.sort_values(ascending=False)] on a table of counts. *)
Definition sort_values_desc {K : Type} (s : list (K * Z)) : list (K * Z) :=
  sort_by (fun a b : K * Z => snd b <=? snd a) s.

(** [Series.sort_index()]. *)
Definition sort_index {K : Type} `{Key K} (s : list (K * Z)) : list (K * Z) :=
  sort_by (fun a b : K * Z => kleb (fst a) (fst b)) s.

Section ProductSales.
(** [Timestamp.dt.strftime('%Y-%m')] is pandas'. *)
Variable strftime_Y_m : Z -> string.

(** [purchases] is the filtered copy [df[df['Action'] == 'Purchase']]; the
    column [Month] is assigned on that copy, not on [df]. *)
Definition analyze_product_sales : Py ProductSales :=
  df <- frame ;;
  let purchases := filter (fun e => Action e =? "Purchase")%string (rows df) in
  let top_products := sort_values_desc (groupby_size Product_ID purchases) in
  let category_sales := value_counts (map Category purchases) in
  let Month := map (fun e => strftime_Y_m (Timestamp e)) purchases in
  let monthly_sales := sort_index (groupby_size (fun m : string => m) Month) in
  let platform_sales := value_counts (map Platform purchases) in
  ret (mkProductSales (head 10 top_products) category_sales monthly_sales
                      platform_sales).
End ProductSales.

(** [sum(d.values())] of a mapping of counts. *)
Definition total {K : Type} (d : list (K * Z)) : Z :=
  fold_right Z.add 0 (map snd d).

(** The sessions of a table that consist of exactly one event. *)
Definition single_event_sessions (df : list Event) : Z :=
  len (filter (fun g => (List.length (snd g) =? 1)%nat)
              (groupby Session_ID df)).

(** The frame with the columns added by assignments forgotten. *)
Definition bare (df : DataFrame) : DataFrame := mkDF (rows df) [].

(** ** Sample tables *)

Definition ev (user session : string) (ts : Z) (page category action : string)
  : Event :=
  mkEvent user session ts page "P1" category action "Mobile" "Web".

(** Two sessions, one Purchase. *)
Definition two_sessions : DataFrame :=
  mkDF [ev "U" "S1" 0 "Home" "Books" "View";
        ev "U" "S2" 1000000000 "Home" "Books" "View";
        ev "U" "S2" 3000000000 "Checkout" "Books" "Purchase"] [].

(** The session S1 of the scenario. *)
Definition s1_path : DataFrame :=
  mkDF [ev "U" "S1" 0 "Home" "Books" "View";
        ev "U" "S1" 1 "Product" "Books" "Click";
        ev "U" "S1" 2 "Cart" "Books" "Add to Cart";
        ev "U" "S1" 3 "Home" "Books" "View"] [].

(** One session that walks A, B, ..., L and then L, K, L: twelve distinct
    transitions, of which (K, L) is taken twice. *)
Definition twelve_transitions : DataFrame :=
  mkDF (map (fun p => ev "U" "S1" 0 p "Books" "View")
            ["A"; "B"; "C"; "D"; "E"; "F"; "G"; "H"; "I"; "J"; "K"; "L";
             "K"; "L"]) [].

(** Two click groups that render to one label. *)
Definition colliding_labels : DataFrame :=
  mkDF [ev "U" "S1" 0 "A - B" "Electronics" "Click";
        ev "U" "S1" 1 "B" "Electronics - A" "Click";
        ev "U" "S1" 2 "B" "Electronics - A" "Click"] [].

(** No rows at all. *)
Definition empty_table : DataFrame := mkDF [] [].

(** A parser for the examples: a file is its parsed table, or nothing when it
    is malformed; a timestamp cell is an instant already, or unparseable. *)
Definition sample_read_csv (file : option Frame) : exn + Frame :=
  match file with
  | Some df => inr df
  | None => inl (LibraryError "Error tokenizing data")
  end.

Definition sample_to_datetime (col : list cell) : exn + list Z :=
  if forallb (fun c => match c with CInt _ => true | _ => false end) col
  then inr (ints col)
  else inl (LibraryError "Unknown datetime string format").

(** A file with the nine required columns and one row. *)
Definition complete_file : option Frame :=
  Some (map (fun c => (c, [CInt 7])) required_columns).

(** ** The properties in the words of the specification *)

Definition funnel_stage_names : list string :=
  ["View"; "Click"; "Add to Cart"; "Purchase"].

(** The number of distinct sessions of [df] that contain at least one event
    whose action is [stage]. *)
Definition sessions_reaching (stage : string) (df : list Event) : Z :=
  len (filter (fun s =>
                 existsb (fun e => (Session_ID e =? s)%string &&
                                   (Action e =? stage)%string) df)
              (unique (map Session_ID df))).

(** The pairs of neighbours of a sequence. *)
Fixpoint adjacent_pairs (l : list string) : list (string * string) :=
  match l with
  | [] => []
  | a :: r =>
      match r with
      | [] => []
      | b :: _ => (a, b) :: adjacent_pairs r
      end
  end.

(** Every pair of consecutive events of one session, session by session. *)
Definition session_transitions (df : list Event) : list (string * string) :=
  flat_map (fun g => adjacent_pairs (map Page_Type (snd g)))
           (groupby Session_ID df).

(** The number of sessions whose page types, joined, give [k]. *)
Definition sessions_with_path (k : string) (df : list Event) : Z :=
  len (filter (fun g => (String.concat "->" (map Page_Type (snd g)) =? k)%string)
              (groupby Session_ID df)).

(* ================================================================== *)
(** * Properties of the operators *)
(* ================================================================== *)

#[export] Instance KeyOk_string : KeyOk string.
Proof. constructor. intros a b. apply String.eqb_eq. Qed.

#[export] Instance KeyOk_Z : KeyOk Z.
Proof. constructor. intros a b. apply Z.eqb_eq. Qed.

#[export] Instance KeyOk_pair (A B : Type) `{KeyOk A} `{KeyOk B}
  : KeyOk (A * B).
Proof.
  constructor. intros [a1 b1] [a2 b2]. simpl.
  rewrite andb_true_iff, !keqb_eq. split.
  - intros [-> ->]. reflexivity.
  - intros E. inversion E. auto.
Qed.

Section PandasFacts.
Context {K : Type} `{KeyOk K}.

Lemma keqb_refl (k : K) : keqb k k = true.
Proof. apply keqb_eq. reflexivity. Qed.

Lemma keqb_neq (a b : K) : keqb a b = false <-> a <> b.
Proof.
  rewrite <- (keqb_eq a b). destruct (keqb a b); split; congruence.
Qed.

Lemma len_nonneg (A : Type) (l : list A) : 0 <= len l.
Proof. unfold len. lia. Qed.

Lemma unique_In (l : list K) (x : K) : In x (unique l) <-> In x l.
Proof.
  induction l as [|a l IH]; simpl; [tauto|].
  rewrite filter_In, IH, negb_true_iff, keqb_neq.
  split.
  - intros [E | [I _]]; auto.
  - intros [E | I]; auto.
    destruct (keqb x a) eqn:E.
    + apply keqb_eq in E. auto.
    + apply keqb_neq in E. auto.
Qed.

Lemma unique_NoDup (l : list K) : NoDup (unique l).
Proof.
  induction l as [|a l IH]; simpl; constructor.
  - rewrite filter_In, negb_true_iff, keqb_neq. intros [_ N]. auto.
  - apply NoDup_filter. exact IH.
Qed.

Lemma nunique_le (l m : list K) :
  incl l m -> nunique l <= nunique m.
Proof.
  intros I. unfold nunique, len. apply inj_le.
  apply NoDup_incl_length; [apply unique_NoDup|].
  intros x. rewrite !unique_In. apply I.
Qed.

Lemma nunique_pos (l : list K) : l <> [] -> 1 <= nunique l.
Proof.
  destruct l as [|a l]; [congruence|]. intros _.
  unfold nunique, len. simpl. lia.
Qed.

Lemma count_pos (k : K) (l : list K) : In k l -> 1 <= count k l.
Proof.
  intros I. unfold count, len.
  assert (In k (filter (fun y => keqb y k) l)) as F
    by (apply filter_In; split; [exact I | apply keqb_refl]).
  destruct (filter (fun y => keqb y k) l); [destruct F | simpl; lia].
Qed.

(** Sorting rearranges and loses nothing. *)
Lemma insert_by_perm (A : Type) (le : A -> A -> bool) (a : A) (l : list A) :
  Permutation (a :: l) (insert_by le a l).
Proof.
  induction l as [|y l IH]; simpl; [reflexivity|].
  destruct (le a y); [reflexivity|].
  rewrite perm_swap. constructor. exact IH.
Qed.

Lemma sort_by_perm (A : Type) (le : A -> A -> bool) (l : list A) :
  Permutation l (sort_by le l).
Proof.
  induction l as [|a l IH]; simpl; [constructor|].
  rewrite <- insert_by_perm. constructor. exact IH.
Qed.

Lemma sort_by_In (A : Type) (le : A -> A -> bool) (l : list A) (x : A) :
  In x (sort_by le l) <-> In x l.
Proof.
  split; apply Permutation_in;
    [symmetry|]; apply sort_by_perm.
Qed.

Lemma head_In (A : Type) (n : nat) (l : list A) (x : A) :
  In x (head n l) -> In x l.
Proof.
  unfold head. intros I.
  rewrite <- (firstn_skipn n l). apply in_or_app. left. exact I.
Qed.

Lemma head_length (A : Type) (n : nat) (l : list A) :
  (List.length (head n l) <= n)%nat.
Proof. unfold head. apply firstn_le_length. Qed.

(** The groups of [groupby]. *)
Lemma groupby_In (A : Type) (key : A -> K) (df : list A) (k : K)
      (g : list A) :
  In (k, g) (groupby key df) <->
  g = filter (fun a => keqb (key a) k) df /\ exists a, In a df /\ key a = k.
Proof.
  unfold groupby. rewrite in_map_iff. split.
  - intros (k' & E & I). inversion E; subst.
    split; [reflexivity|].
    apply sort_by_In, unique_In, in_map_iff in I.
    destruct I as (a & Ea & Ia). eauto.
  - intros (-> & a & Ia & Ea). exists k. split; [reflexivity|].
    apply sort_by_In, unique_In, in_map_iff. eauto.
Qed.

Lemma groupby_keys_NoDup (A : Type) (key : A -> K) (df : list A) :
  NoDup (map fst (groupby key df)).
Proof.
  unfold groupby. rewrite map_map. simpl. rewrite map_id.
  eapply Permutation_NoDup; [apply sort_by_perm | apply unique_NoDup].
Qed.

Lemma groupby_nonempty (A : Type) (key : A -> K) (df : list A) (k : K)
      (g : list A) :
  In (k, g) (groupby key df) -> g <> [].
Proof.
  rewrite groupby_In. intros (-> & a & Ia & Ea) E.
  assert (In a (filter (fun a => keqb (key a) k) df)) as F
    by (apply filter_In; split; [exact Ia | apply keqb_eq; exact Ea]).
  rewrite E in F. destruct F.
Qed.

(** Every entry of [value_counts] is a value that occurs, with the number
    of its occurrences. *)
Lemma value_counts_In (l : list K) (k : K) (n : Z) :
  In (k, n) (value_counts l) <-> In k l /\ n = count k l.
Proof.
  unfold value_counts. rewrite sort_by_In, in_map_iff. split.
  - intros (k' & E & I). inversion E; subst. rewrite unique_In in I.
    split; [exact I | reflexivity].
  - intros (I & ->). exists k. split; [reflexivity | apply unique_In, I].
Qed.

Lemma value_counts_pos (l : list K) (k : K) (n : Z) :
  In (k, n) (value_counts l) -> In k l /\ 1 <= n.
Proof.
  rewrite value_counts_In. intros (I & ->). split; [exact I|].
  apply count_pos, I.
Qed.

Lemma groupby_size_In (A : Type) (key : A -> K) (df : list A) (k : K)
      (n : Z) :
  In (k, n) (groupby_size key df) <->
  n = len (filter (fun a => keqb (key a) k) df) /\
  exists a, In a df /\ key a = k.
Proof.
  unfold groupby_size. rewrite in_map_iff. split.
  - intros ([k' g] & E & I). simpl in E. inversion E; subst.
    apply groupby_In in I. destruct I as (-> & X). auto.
  - intros (-> & X). exists (k, filter (fun a => keqb (key a) k) df).
    split; [reflexivity|]. apply groupby_In. auto.
Qed.

Lemma groupby_size_pos (A : Type) (key : A -> K) (df : list A) (k : K)
      (n : Z) :
  In (k, n) (groupby_size key df) -> 1 <= n.
Proof.
  rewrite groupby_size_In. intros (-> & a & Ia & Ea).
  assert (In a (filter (fun a => keqb (key a) k) df)) as F
    by (apply filter_In; split; [exact Ia | apply keqb_eq; exact Ea]).
  unfold len. destruct (filter _ df); [destruct F | simpl; lia].
Qed.

(** Dict construction. *)
Lemma dict_set_In (V : Type) (k : K) (v : V) (d : list (K * V)) (x : K * V) :
  In x (dict_set k v d) -> x = (k, v) \/ In x d.
Proof.
  induction d as [|[k' v'] d IH]; simpl.
  - intros [E | []]. auto.
  - destruct (keqb k' k) eqn:E; simpl.
    + apply keqb_eq in E. subst. intros [E' | I]; auto.
    + intros [E' | I]; auto. destruct (IH I); auto.
Qed.

Lemma dict_set_fresh (V : Type) (k : K) (v : V) (d : list (K * V)) :
  ~ In k (map fst d) -> dict_set k v d = d ++ [(k, v)].
Proof.
  induction d as [|[k' v'] d IH]; simpl; [reflexivity|].
  intros N. destruct (keqb k' k) eqn:E.
  - apply keqb_eq in E. tauto.
  - rewrite IH; [reflexivity | tauto].
Qed.

Lemma fold_dict_set_In (V : Type) (items d : list (K * V)) (x : K * V) :
  In x (fold_left (fun d kv => dict_set (fst kv) (snd kv) d) items d) ->
  In x items \/ In x d.
Proof.
  revert d. induction items as [|[k v] items IH]; simpl; intros d; auto.
  intros I. destruct (IH _ I) as [I' | I']; auto.
  apply dict_set_In in I'. destruct I'; auto.
Qed.

Lemma dict_of_In (V : Type) (items : list (K * V)) (x : K * V) :
  In x (dict_of items) -> In x items.
Proof.
  intros I. apply fold_dict_set_In in I. destruct I as [I | []]. exact I.
Qed.

Lemma fold_dict_set_fresh (V : Type) (items d : list (K * V)) :
  NoDup (map fst (d ++ items)) ->
  fold_left (fun d kv => dict_set (fst kv) (snd kv) d) items d = d ++ items.
Proof.
  revert d. induction items as [|[k v] items IH]; simpl; intros d N.
  - rewrite app_nil_r. reflexivity.
  - assert (d ++ (k, v) :: items = (d ++ [(k, v)]) ++ items) as E
      by (rewrite <- app_assoc; reflexivity).
    rewrite dict_set_fresh.
    + rewrite IH; [symmetry; exact E | rewrite <- E; exact N].
    + rewrite map_app in N. simpl in N.
      apply NoDup_remove_2 in N. intros I. apply N.
      apply in_or_app. auto.
Qed.

Lemma dict_of_distinct (V : Type) (items : list (K * V)) :
  NoDup (map fst items) -> dict_of items = items.
Proof. intros N. unfold dict_of. rewrite fold_dict_set_fresh; auto. Qed.

Lemma lookup_In (V : Type) (k : K) (v : V) (d : list (K * V)) :
  lookup k d = Some v -> In (k, v) d.
Proof.
  induction d as [|[k' v'] d IH]; simpl; [discriminate|].
  destruct (keqb k' k) eqn:E.
  - apply keqb_eq in E. intros [= ->]. subst. auto.
  - auto.
Qed.

Lemma In_lookup (V : Type) (k : K) (v : V) (d : list (K * V)) :
  NoDup (map fst d) -> In (k, v) d -> lookup k d = Some v.
Proof.
  induction d as [|[k' v'] d IH]; simpl; [tauto|].
  intros N [E | I].
  - inversion E; subst. rewrite keqb_refl. reflexivity.
  - inversion N; subst. destruct (keqb k' k) eqn:E.
    + apply keqb_eq in E. subst. exfalso. apply H3.
      apply in_map_iff. exists (k, v). auto.
    + auto.
Qed.
End PandasFacts.

(* ================================================================== *)
(** * The conversion funnel *)
(* ================================================================== *)

Lemma rate_bounds (c t : Z) :
  0 <= c <= t -> 1 <= t ->
  (0 <= inject_Z c / inject_Z t * 100 <= 100)%Q.
Proof.
  intros Hc Ht. destruct t as [|t|t]; try lia.
  unfold Qle, Qdiv, Qmult, Qinv, inject_Z. simpl. split; nia.
Qed.

Lemma stage_sessions_le (stage : string) (df : list Event) :
  0 <= stage_sessions stage df <= nunique (map Session_ID df).
Proof.
  unfold stage_sessions. split; [apply len_nonneg|].
  apply nunique_le. intros s I. apply in_map_iff in I.
  destruct I as (e & E & I). apply filter_In in I.
  apply in_map_iff. exists e. tauto.
Qed.

Lemma stage_sessions_spec (stage : string) (df : list Event) :
  stage_sessions stage df = sessions_reaching stage df.
Proof.
  unfold stage_sessions, sessions_reaching, nunique, len. f_equal.
  apply Permutation_length, NoDup_Permutation.
  - apply unique_NoDup.
  - apply NoDup_filter, unique_NoDup.
  - intros s. rewrite unique_In, filter_In, unique_In, !in_map_iff, existsb_exists.
    split.
    + intros (e & E & I). apply filter_In in I. destruct I as (I & A).
      split; exists e; [tauto|]. split; [exact I|].
      rewrite A, andb_true_r. apply String.eqb_eq. exact E.
    + intros (_ & e & I & A). apply andb_true_iff in A. destruct A as (S & A).
      exists e. split; [apply String.eqb_eq; exact S|].
      apply filter_In. tauto.
Qed.

Lemma analyze_conversion_funnel_runs (df : DataFrame) :
  rows df <> [] ->
  analyze_conversion_funnel df =
  (inr (funnel_stages_of (rows df),
        map (fun sc =>
               (fst sc,
                (inject_Z (snd sc)
                 / inject_Z (nunique (map Session_ID (rows df))) * 100)%Q))
            (funnel_stages_of (rows df))),
   df).
Proof.
  intros N.
  assert (1 <= nunique (map Session_ID (rows df))) as T.
  { apply nunique_pos. destruct (rows df); [congruence | discriminate]. }
  unfold analyze_conversion_funnel, bind, frame, funnel_stages_of, for_each,
    truediv, bind, ret, raise.
  simpl.
  destruct (nunique (map Session_ID (rows df)) =? 0) eqn:E;
    [apply Z.eqb_eq in E; lia|].
  reflexivity.
Qed.

(** C1. For a table with at least one session, the funnel returns for each
    of the four stages the number of distinct sessions that contain an event
    with that action, and the rate count / total_sessions * 100; every count
    is at most the number of distinct sessions and every rate is in
    [0, 100].  With two distinct sessions and exactly one Purchase event,
    the Purchase count is 1 and its rate 50. *)
Theorem C1_funnel_counts_distinct_sessions (df : DataFrame) :
  rows df <> [] ->
  let total := nunique (map Session_ID (rows df)) in
  exists stages rates,
    result analyze_conversion_funnel df = inr (stages, rates) /\
    map fst stages = funnel_stage_names /\
    map fst rates = funnel_stage_names /\
    (forall stage, In stage funnel_stage_names ->
       exists c r,
         lookup stage stages = Some c /\ lookup stage rates = Some r /\
         c = sessions_reaching stage (rows df) /\
         r = (inject_Z c / inject_Z total * 100)%Q /\
         0 <= c <= total /\ (0 <= r <= 100)%Q) /\
    (total = 2 ->
     len (filter (fun e => Action e =? "Purchase")%string (rows df)) = 1 ->
     lookup "Purchase" stages = Some 1 /\
     exists r, lookup "Purchase" rates = Some r /\ (r == 50)%Q).
Proof.
  intros N total.
  assert (1 <= total) as T.
  { apply nunique_pos. destruct (rows df); [congruence | discriminate]. }
  do 2 eexists. unfold result.
  rewrite (analyze_conversion_funnel_runs df N). fold total.
  split; [reflexivity|]. split; [reflexivity|]. split; [reflexivity|].
  split.
  - intros stage I.
    exists (stage_sessions stage (rows df)),
           (inject_Z (stage_sessions stage (rows df)) / inject_Z total * 100)%Q.
    pose proof (stage_sessions_le stage (rows df)) as B. fold total in B.
    assert (lookup stage (funnel_stages_of (rows df))
            = Some (stage_sessions stage (rows df)) /\
            lookup stage
              (map (fun sc => (fst sc, (inject_Z (snd sc) / inject_Z total * 100)%Q))
                   (funnel_stages_of (rows df)))
            = Some (inject_Z (stage_sessions stage (rows df))
                    / inject_Z total * 100)%Q) as [L1 L2].
    { simpl in I. destruct I as [<- | [<- | [<- | [<- | []]]]];
        split; reflexivity. }
    repeat split; try assumption; try tauto.
    + apply stage_sessions_spec.
    + apply rate_bounds; assumption.
    + apply rate_bounds; assumption.
  - intros T2 P1.
    assert (stage_sessions "Purchase" (rows df) = 1) as S1.
    { unfold stage_sessions, nunique. unfold len in P1.
      destruct (filter (fun e => Action e =? "Purchase")%string (rows df))
        as [|e [|e' l]]; simpl in P1; try lia. reflexivity. }
    simpl. rewrite S1. split; [reflexivity|].
    eexists. split; [reflexivity|]. rewrite T2. reflexivity.
Qed.

Lemma C1_funnel_witness :
  exists stages rates,
    result analyze_conversion_funnel two_sessions = inr (stages, rates) /\
    lookup "Purchase" stages = Some 1 /\
    exists r, lookup "Purchase" rates = Some r /\ (r == 50)%Q.
Proof.
  destruct (@C1_funnel_counts_distinct_sessions two_sessions)
    as (stages & rates & R & _ & _ & _ & S); [discriminate|].
  exists stages, rates. split; [exact R|].
  apply S; reflexivity.
Defined.

(* ================================================================== *)
(** * Session aggregates *)
(* ================================================================== *)

Lemma fold_max_spec (r : list Z) (x : Z) :
  In (fold_left Z.max r x) (x :: r) /\
  forall t, In t (x :: r) -> t <= fold_left Z.max r x.
Proof.
  revert x. induction r as [|y r IH]; intros x; simpl.
  - split; [auto|]. intros t [E | []]. lia.
  - destruct (IH (Z.max x y)) as (I & B). split.
    + destruct I as [E | I]; [|auto].
      rewrite <- E. destruct (Z.max_spec x y) as [[_ ->] | [_ ->]]; auto.
    + intros t [E | [E | I']].
      * subst t. specialize (B (Z.max x y) (or_introl eq_refl)). lia.
      * subst t. specialize (B (Z.max x y) (or_introl eq_refl)). lia.
      * apply B. right. exact I'.
Qed.

Lemma fold_min_spec (r : list Z) (x : Z) :
  In (fold_left Z.min r x) (x :: r) /\
  forall t, In t (x :: r) -> fold_left Z.min r x <= t.
Proof.
  revert x. induction r as [|y r IH]; intros x; simpl.
  - split; [auto|]. intros t [E | []]. lia.
  - destruct (IH (Z.min x y)) as (I & B). split.
    + destruct I as [E | I]; [|auto].
      rewrite <- E. destruct (Z.min_spec x y) as [[_ ->] | [_ ->]]; auto.
    + intros t [E | [E | I']].
      * subst t. specialize (B (Z.min x y) (or_introl eq_refl)). lia.
      * subst t. specialize (B (Z.min x y) (or_introl eq_refl)). lia.
      * apply B. right. exact I'.
Qed.

Lemma lookup_group_map (V : Type) (f : string * list Event -> V)
      (df : list Event) (sid : string) (g : list Event) :
  In (sid, g) (groupby Session_ID df) ->
  lookup sid (map (fun g => (fst g, f g)) (groupby Session_ID df))
  = Some (f (sid, g)).
Proof.
  intros I. apply In_lookup.
  - rewrite map_map. simpl. apply groupby_keys_NoDup.
  - apply in_map_iff. exists (sid, g). auto.
Qed.



(* ================================================================== *)
(** * Paths and transitions *)
(* ================================================================== *)

Section Counting.
Context {K : Type} `{KeyOk K}.

Lemma count_perm (k : K) (l m : list K) :
  Permutation l m -> count k l = count k m.
Proof.
  unfold count, len. intros P. f_equal.
  induction P; simpl; try lia.
  - destruct (keqb x k); simpl; lia.
  - destruct (keqb x k), (keqb y k); simpl; lia.
Qed.

Lemma count_map (A : Type) (f : A -> K) (k : K) (l : list A) :
  count k (map f l) = len (filter (fun a => keqb (f a) k) l).
Proof.
  unfold count, len. f_equal.
  induction l as [|a l IH]; simpl; [reflexivity|].
  destruct (keqb (f a) k); simpl; lia.
Qed.

Lemma lookup_dict_set (V : Type) (k : K) (v : V) (d : list (K * V)) :
  lookup k (dict_set k v d) = Some v.
Proof.
  induction d as [|[k' v'] d IH]; simpl.
  - rewrite keqb_refl. reflexivity.
  - destruct (keqb k' k) eqn:E; simpl; rewrite E; auto.
Qed.

Lemma lookup_dict_set_other (V : Type) (k k' : K) (v : V)
      (d : list (K * V)) :
  k' <> k -> lookup k' (dict_set k v d) = lookup k' d.
Proof.
  intros N. induction d as [|[k0 v0] d IH]; simpl.
  - destruct (keqb k k') eqn:E; [apply keqb_eq in E; congruence | reflexivity].
  - destruct (keqb k0 k) eqn:E; simpl.
    + apply keqb_eq in E. subst k0.
      destruct (keqb k k') eqn:E'; [apply keqb_eq in E'; congruence | reflexivity].
    + destruct (keqb k0 k'); auto.
Qed.
End Counting.

(** The rows that have a successor in their session, as the code finds them
    from the column [next_page]. *)
Lemma transition_rows_cons (e : Event) (r : list Event) :
  transition_rows (combine (e :: r) (map to_cell (shift_next (e :: r)))) =
  match find (fun e' => (Session_ID e' =? Session_ID e)%string) r with
  | Some e' => [(Page_Type e, Page_Type e')]
  | None => []
  end ++ transition_rows (combine r (map to_cell (shift_next r))).
Proof.
  simpl. unfold transition_rows at 1. simpl.
  destruct (find _ r); reflexivity.
Qed.

Lemma find_filter (A : Type) (f : A -> bool) (l : list A) :
  find f l = hd_error (filter f l).
Proof.
  induction l as [|a l IH]; simpl; [reflexivity|].
  destruct (f a); [reflexivity | exact IH].
Qed.

Lemma flat_map_all_nil (A B : Type) (f : A -> list B) (l : list A) :
  (forall a, In a l -> f a = []) -> flat_map f l = [].
Proof.
  induction l as [|a l IH]; simpl; intros E; [reflexivity|].
  rewrite E, IH; auto.
Qed.

Lemma flat_map_ext_in (A B : Type) (f g : A -> list B) (l : list A) :
  (forall a, In a l -> f a = g a) -> flat_map f l = flat_map g l.
Proof.
  induction l as [|a l IH]; simpl; intros E; [reflexivity|].
  rewrite E, IH; auto.
Qed.

(** Row by row or session by session, the same pairs are found. *)
Lemma transition_rows_by_session (df : list Event) (ks : list string) :
  NoDup ks -> (forall e, In e df -> In (Session_ID e) ks) ->
  Permutation
    (transition_rows (combine df (map to_cell (shift_next df))))
    (flat_map (fun k =>
                 adjacent_pairs
                   (map Page_Type
                        (filter (fun e => Session_ID e =? k)%string df)))
              ks).
Proof.
  intros ND. induction df as [|e r IH]; intros C.
  - rewrite flat_map_all_nil; [constructor | reflexivity].
  - rewrite transition_rows_cons.
    assert (In (Session_ID e) ks) as Is by (apply C; left; reflexivity).
    apply in_split in Is. destruct Is as (k1 & k2 & Eks).
    assert (~ In (Session_ID e) k1 /\ ~ In (Session_ID e) k2) as (N1 & N2).
    { rewrite Eks in ND. apply NoDup_remove_2 in ND.
      split; intros I; apply ND; apply in_or_app; auto. }
    specialize (IH (fun e' I => C e' (or_intror I))).
    rewrite Eks in IH |- *. rewrite flat_map_app in IH |- *. simpl in IH |- *.
    rewrite String.eqb_refl. simpl.
    assert (forall ks', ~ In (Session_ID e) ks' ->
              flat_map (fun k => adjacent_pairs (map Page_Type
                          (if (Session_ID e =? k)%string
                           then e :: filter (fun e0 => Session_ID e0 =? k)%string r
                           else filter (fun e0 => Session_ID e0 =? k)%string r)))
                       ks'
              = flat_map (fun k => adjacent_pairs (map Page_Type
                          (filter (fun e0 => Session_ID e0 =? k)%string r)))
                       ks') as Same.
    { intros ks' N. apply flat_map_ext_in. intros k Ik.
      destruct (Session_ID e =? k)%string eqn:E; [|reflexivity].
      apply String.eqb_eq in E. subst k. tauto. }
    rewrite (Same k1 N1), (Same k2 N2).
    rewrite find_filter.
    destruct (filter (fun e0 => Session_ID e0 =? Session_ID e)%string r)
      as [|e' g'] eqn:F; simpl in *.
    + exact IH.
    + rewrite IH. apply Permutation_middle.
Qed.

Lemma session_transitions_perm (df : list Event) :
  Permutation (transition_rows (combine df (map to_cell (shift_next df))))
              (session_transitions df).
Proof.
  unfold session_transitions, groupby. rewrite flat_map_concat_map, map_map.
  rewrite <- flat_map_concat_map. simpl.
  apply transition_rows_by_session.
  - eapply Permutation_NoDup; [apply sort_by_perm | apply unique_NoDup].
  - intros e I. apply sort_by_In, unique_In, in_map. exact I.
Qed.

Lemma analyze_clickstream_frame (df : DataFrame) :
  frame_after analyze_clickstream df =
  mkDF (rows df)
       (dict_set "next_page" (map to_cell (shift_next (rows df))) (added df)).
Proof. reflexivity. Qed.

Lemma transitions_of_after (df : DataFrame) :
  transitions_of (frame_after analyze_clickstream df) =
  groupby_size (fun p : string * string => p)
    (transition_rows
       (combine (rows df) (map to_cell (shift_next (rows df))))).
Proof.
  rewrite analyze_clickstream_frame. unfold transitions_of, with_column.
  simpl. rewrite lookup_dict_set. reflexivity.
Qed.

Lemma transitions_In (df : DataFrame) (p : string * string) (n : Z) :
  In (p, n) (transitions_of (frame_after analyze_clickstream df)) <->
  In p (session_transitions (rows df)) /\
  n = count p (session_transitions (rows df)).
Proof.
  rewrite transitions_of_after, groupby_size_In.
  pose proof (session_transitions_perm (rows df)) as P.
  rewrite <- (count_perm p _ _ P). unfold count. split.
  - intros (-> & q & Iq & ->). split; [|reflexivity].
    eapply Permutation_in; eauto.
  - intros (I & ->). split; [reflexivity|]. exists p. split; [|reflexivity].
    eapply Permutation_in; [symmetry|]; eauto.
Qed.

Lemma path_counts_In (df : list Event) (k : string) (n : Z) :
  In (k, n) (value_counts (session_strings Page_Type df)) <->
  (exists sid g, In (sid, g) (groupby Session_ID df) /\
                 String.concat "->" (map Page_Type g) = k) /\
  n = sessions_with_path k df.
Proof.
  rewrite value_counts_In. unfold session_strings, sessions_with_path.
  rewrite count_map, in_map_iff. unfold join_arrow. simpl.
  split; intros (X & ->); (split; [|reflexivity]).
  - destruct X as ([sid g] & E & I). eauto.
  - destruct X as (sid & g & I & E). exists (sid, g). auto.
Qed.



Lemma top_transitions_head (df : DataFrame) (c : Clickstream) :
  result analyze_clickstream df = inr c ->
  top_transitions c =
  head 10 (transitions_of (frame_after analyze_clickstream df)).
Proof. intros [= <-]. reflexivity. Qed.

Lemma top_transitions_at_most_10 (df : DataFrame) (c : Clickstream) :
  result analyze_clickstream df = inr c ->
  (List.length (top_transitions c) <= 10)%nat.
Proof.
  intros E. rewrite (top_transitions_head df c E). apply head_length.
Qed.

(** C4. [top_transitions] is the first ten rows of the transition table in
    the order of its keys, not the ten largest counts: on the walk
    A, B, ..., L, K, L the pair (K, L), taken twice, is left out while ten
    pairs taken once are kept. *)
Theorem C4_top_transitions_in_key_order :
  exists c,
    result analyze_clickstream twelve_transitions = inr c /\
    lookup ("K", "L")
           (transitions_of (frame_after analyze_clickstream twelve_transitions))
    = Some 2 /\
    lookup ("K", "L") (top_transitions c) = None /\
    lookup ("A", "B") (top_transitions c) = Some 1 /\
    List.length (top_transitions c) = 10%nat.
Proof. eexists. repeat split; reflexivity. Qed.

(* ================================================================== *)
(** * What the passes do to the table *)
(* ================================================================== *)


Lemma analyze_user_behavior_adds_Hour :
  added (frame_after analyze_user_behavior two_sessions)
  = [("Hour", [CInt 0; CInt 0; CInt 0])].
Proof. reflexivity. Qed.

Section PassFrames.
Variable Scaled : Type.
Variable fit_transform : list (list Z) -> exn + Scaled.
Variable fit_predict : Scaled -> exn + list Z.

Lemma analyze_session_metrics_reads (df : DataFrame) :
  analyze_session_metrics df
  = (result analyze_session_metrics (bare df), df).
Proof. reflexivity. Qed.

Lemma analyze_conversion_funnel_reads (df : DataFrame) :
  analyze_conversion_funnel df
  = (result analyze_conversion_funnel (bare df), df).
Proof.
  unfold result, analyze_conversion_funnel, bind, frame, funnel_stages_of,
    for_each, truediv, bind, ret, raise, bare. simpl.
  destruct (nunique (map Session_ID (rows df)) =? 0); reflexivity.
Qed.

Lemma segment_users_reads (df : DataFrame) :
  segment_users fit_transform fit_predict df
  = (result (segment_users fit_transform fit_predict) (bare df), df).
Proof.
  unfold result, segment_users, bind, frame, lift, raise, ret, bare. simpl.
  destruct (fit_transform _) as [e | sc]; [reflexivity|].
  destruct (fit_predict sc) as [e | seg]; [reflexivity|].
  destruct (_ =? _)%nat; reflexivity.
Qed.

Lemma analyze_clickstream_unfold (df : DataFrame) :
  analyze_clickstream df
  = (inr (mkClickstream
            (mean (map (fun s => duration_seconds (snd s))
                       (session_stats (rows df))))
            (mean (map (fun s => of_int (page_views (snd s)))
                       (session_stats (rows df))))
            (head 10 (value_counts (session_strings Page_Type (rows df))))
            (head 10 (value_counts (session_strings Action (rows df))))
            (head 10 (transitions_of (frame_after analyze_clickstream df)))
            (dict_of (map (fun row => (click_label row, clicks row))
                          (kept_click_rows (rows df))))),
     frame_after analyze_clickstream df).
Proof. reflexivity. Qed.

Lemma analyze_clickstream_reads (df : DataFrame) :
  analyze_clickstream df
  = (result analyze_clickstream (bare df),
     mkDF (rows df)
          (dict_set "next_page" (map to_cell (shift_next (rows df)))
                    (added df))).
Proof.
  unfold result.
  rewrite (analyze_clickstream_unfold df),
    (analyze_clickstream_unfold (bare df)).
  rewrite !transitions_of_after. reflexivity.
Qed.

Lemma run_pass_reads (p : pass) (df : DataFrame) :
  run_pass fit_transform fit_predict p df
  = (result (run_pass fit_transform fit_predict p) (bare df),
     match p with
     | PathSequenceMiner =>
         mkDF (rows df)
              (dict_set "next_page" (map to_cell (shift_next (rows df)))
                        (added df))
     | _ => df
     end).
Proof.
  destruct p; unfold run_pass, result, bind.
  - rewrite analyze_session_metrics_reads,
      (analyze_session_metrics_reads (bare df)).
    unfold result. destruct (fst _); reflexivity.
  - rewrite analyze_clickstream_reads,
      (analyze_clickstream_reads (bare df)).
    unfold result. destruct (fst _); reflexivity.
  - rewrite analyze_conversion_funnel_reads,
      (analyze_conversion_funnel_reads (bare df)).
    unfold result. destruct (fst _); reflexivity.
  - rewrite segment_users_reads, (segment_users_reads (bare df)).
    unfold result. destruct (fst _); reflexivity.
Qed.

End PassFrames.


(* ================================================================== *)
(** * Empty tables and too few users *)
(* ================================================================== *)


Lemma nunique_zero (l : list string) : nunique l = 0 <-> l = [].
Proof.
  split; [|intros ->; reflexivity].
  destruct l; [reflexivity|]. unfold nunique, len. simpl. lia.
Qed.

Section NoGuard.
Variable Scaled : Type.
Variable fit_transform : list (list Z) -> exn + Scaled.
Variable fit_predict : Scaled -> exn + list Z.

End NoGuard.


(* ================================================================== *)
(** * Click patterns *)
(* ================================================================== *)

Section Sorting.
Variable A : Type.
Variable le : A -> A -> bool.
Hypothesis le_total : forall a b, le a b = true \/ le b a = true.
Hypothesis le_trans :
  forall a b c, le a b = true -> le b c = true -> le a c = true.

Local Abbreviation R := (fun a b : A => le a b = true).

Lemma insert_by_sorted (a : A) (l : list A) :
  StronglySorted R l -> StronglySorted R (insert_by le a l).
Proof.
  induction l as [|y l IH]; simpl; intros S.
  - constructor; constructor.
  - apply StronglySorted_inv in S. destruct S as (S & F).
    destruct (le a y) eqn:E.
    + constructor; [constructor; assumption|].
      constructor; [exact E|].
      eapply Forall_impl; [|exact F]. intros z Rz. eapply le_trans; eauto.
    + constructor; [apply IH, S|].
      eapply Permutation_Forall; [apply insert_by_perm|].
      constructor; [|exact F].
      destruct (le_total a y) as [T | T]; [congruence | exact T].
Qed.

Lemma sort_by_sorted (l : list A) : StronglySorted R (sort_by le l).
Proof.
  induction l as [|a l IH]; simpl; [constructor|].
  apply insert_by_sorted, IH.
Qed.

Lemma sorted_nth (l : list A) (i j : nat) (a b : A) :
  StronglySorted R l -> (i < j)%nat ->
  nth_error l i = Some a -> nth_error l j = Some b -> le a b = true.
Proof.
  intros S. revert i j. induction S as [|x l S IH F]; intros i j L Ni Nj.
  - destruct i; discriminate.
  - destruct j as [|j]; [lia|]. simpl in Nj. destruct i as [|i].
    + simpl in Ni. inversion Ni; subst x.
      rewrite Forall_forall in F. apply F. eapply nth_error_In; eauto.
    + simpl in Ni. apply (IH i j); [lia | assumption | assumption].
Qed.
End Sorting.

Lemma click_order_total (a b : ClickRow) :
  click_order a b = true \/ click_order b a = true.
Proof.
  unfold click_order.
  destruct (is_electronics a), (is_electronics b); simpl; auto;
    rewrite !Z.leb_le; lia.
Qed.

Lemma click_order_trans (a b c : ClickRow) :
  click_order a b = true -> click_order b c = true -> click_order a c = true.
Proof.
  unfold click_order.
  destruct (is_electronics a), (is_electronics b), (is_electronics c);
    simpl; auto; rewrite ?Z.leb_le; try lia; discriminate.
Qed.

Lemma click_counts_In (clicks_df : list Event) (row : ClickRow) :
  In row (click_counts clicks_df) <->
  (exists e, In e clicks_df /\ Category e = cr_Category row /\
             Page_Type e = cr_Page_Type row) /\
  clicks row
  = len (filter (fun e => (Category e =? cr_Category row)%string &&
                          (Page_Type e =? cr_Page_Type row)%string)
                clicks_df) /\
  is_electronics row = (cr_Category row =? "Electronics")%string.
Proof.
  unfold click_counts. rewrite in_map_iff. split.
  - intros ([[cat page] n] & <- & I). simpl.
    apply groupby_size_In in I. destruct I as (-> & e & Ie & Ek).
    inversion Ek; subst. split; [eauto|]. split; reflexivity.
  - destruct row as [cat page n el]. simpl. intros ((e & Ie & <- & <-) & -> & ->).
    eexists (_, _, _). split; [reflexivity|].
    apply groupby_size_In. split; [reflexivity|]. eauto.
Qed.

Lemma click_counts_keys_NoDup (clicks_df : list Event) :
  NoDup (map (fun row => (cr_Category row, cr_Page_Type row))
             (click_counts clicks_df)).
Proof.
  unfold click_counts, groupby_size. rewrite !map_map. simpl.
  rewrite <- (map_map fst (fun k : string * string => (fst k, snd k))).
  rewrite (map_ext (fun k : string * string => (fst k, snd k)) (fun k => k)),
    map_id by (intros []; reflexivity).
  apply groupby_keys_NoDup.
Qed.

Lemma nth_error_head (A : Type) (n i : nat) (l : list A) (a : A) :
  nth_error (head n l) i = Some a -> nth_error l i = Some a.
Proof.
  unfold head. revert i l. induction n as [|n IH]; intros i l.
  - destruct i; discriminate.
  - destruct l as [|x l]; [destruct i; discriminate|].
    destruct i as [|i]; simpl; [auto | apply IH].
Qed.




(* ================================================================== *)
(** * The loader and the upload handler *)
(* ================================================================== *)

Lemma dict_set_keys (V : Type) (k : string) (v : V) (d : list (string * V)) :
  In k (map fst d) -> map fst (dict_set k v d) = map fst d.
Proof.
  induction d as [|[k' v'] d IH]; simpl; [tauto|].
  intros I. destruct (String.eqb_spec k' k) as [E | N]; simpl.
  - reflexivity.
  - f_equal. apply IH. destruct I; [congruence | assumption].
Qed.

Lemma lookup_present (V : Type) (k : string) (d : list (string * V)) :
  In k (map fst d) -> exists v, lookup k d = Some v.
Proof.
  induction d as [|[k' v'] d IH]; simpl; [tauto|].
  intros I. destruct (String.eqb_spec k' k) as [E | N]; [eauto|].
  apply IH. destruct I; [congruence | assumption].
Qed.

Lemma has_required_columns (df : Frame) :
  forallb (fun col => existsb (String.eqb col) (map fst df)) required_columns
  = true <->
  forall col, In col required_columns -> In col (map fst df).
Proof.
  rewrite forallb_forall. split; intros A col I; specialize (A col I).
  - apply existsb_exists in A. destruct A as (x & Ix & E).
    apply String.eqb_eq in E. subst. exact Ix.
  - apply existsb_exists. exists col. split; [exact A | apply String.eqb_refl].
Qed.

Lemma error_loading_message_truthy (e : exn) :
  error_loading_message e <> "".
Proof. discriminate. Qed.

Section LoaderFacts.
Variable File : Type.
Variable read_csv : File -> exn + Frame.
Variable to_datetime : list cell -> exn + list Z.

Local Abbreviation load := (load_and_validate_data File read_csv to_datetime).

Lemma load_missing_column (file : File) (raw : Frame) (col : string) :
  read_csv file = inr raw ->
  In col required_columns -> ~ In col (map fst raw) ->
  load file = (None, Some missing_columns_message).
Proof.
  intros R I N. unfold load_and_validate_data, load_body. rewrite R.
  destruct (forallb _ required_columns) eqn:F; [|reflexivity].
  exfalso. apply N. apply (proj1 (has_required_columns raw) F). exact I.
Qed.

Lemma load_cases (file : File) :
  (exists e, load file = (None, Some (error_loading_message e)) /\
     (read_csv file = inl e \/
      exists raw ts,
        read_csv file = inr raw /\
        (forall col, In col required_columns -> In col (map fst raw)) /\
        lookup "Timestamp" raw = Some ts /\ to_datetime ts = inl e)) \/
  (load file = (None, Some missing_columns_message) /\
   exists raw col, read_csv file = inr raw /\ In col required_columns /\
                   ~ In col (map fst raw)) \/
  (exists raw ts t,
     read_csv file = inr raw /\
     (forall col, In col required_columns -> In col (map fst raw)) /\
     lookup "Timestamp" raw = Some ts /\ to_datetime ts = inr t /\
     load file = (Some (dict_set "Timestamp" (map CTime t) raw), None)).
Proof.
  unfold load_and_validate_data, load_body.
  destruct (read_csv file) as [e | raw] eqn:R; [left; eauto|].
  destruct (forallb _ required_columns) eqn:F; simpl.
  - pose proof (proj1 (has_required_columns raw) F) as All.
    destruct (lookup_present _ "Timestamp" raw) as (ts & L).
    { apply All. simpl. auto. }
    rewrite L. destruct (to_datetime ts) as [e | t] eqn:T.
    + left. exists e. split; [reflexivity|]. right. exists raw, ts. auto.
    + right. right. exists raw, ts, t. auto.
  - right. left. split; [reflexivity|].
    assert (~ forall col, In col required_columns -> In col (map fst raw))
      as NA by (rewrite <- has_required_columns; congruence).
    unfold required_columns in *.
    assert (forall c, {In c (map fst raw)} + {~ In c (map fst raw)}) as D
      by (intros c; apply in_dec, string_dec).
    exists raw.
    destruct (Forall_Exists_dec (fun c => In c (map fst raw)) D
                ["User_ID"; "Session_ID"; "Timestamp"; "Page_Type";
                 "Product_ID"; "Category"; "Action"; "Device_Type";
                 "Platform"]) as [A | E].
    + exfalso. apply NA. apply Forall_forall. exact A.
    + apply Exists_exists in E. destruct E as (col & I & N).
      exists col. split; [reflexivity|]. split; [exact I | exact N].
Qed.
End LoaderFacts.

Section LoaderClaim.
Variable File : Type.
Variable read_csv : File -> exn + Frame.
Variable to_datetime : list cell -> exn + list Z.

Local Abbreviation load := (load_and_validate_data File read_csv to_datetime).
Local Abbreviation handler := (upload_handler File read_csv to_datetime).

(** C8. The loader returns a table or an error message, never both and
    never neither: the missing-column message when a required column is
    absent from the parsed table, the loading-error message carrying the
    parser's exception when the file or a timestamp cannot be parsed; on
    success only the column Timestamp is replaced, by the parsed instants,
    and every other column is the parsed one.  On an error the handler
    shows the message and calls no analytic function. *)
Theorem C8_loader_validates (file : File) :
  ((exists df, load file = (Some df, None)) \/
   (exists msg, load file = (None, Some msg) /\ msg <> "")) /\
  (forall raw col,
     read_csv file = inr raw ->
     In col required_columns -> ~ In col (map fst raw) ->
     load file = (None, Some missing_columns_message)) /\
  (forall e,
     read_csv file = inl e ->
     load file = (None, Some (error_loading_message e))) /\
  (forall raw ts e,
     read_csv file = inr raw ->
     (forall col, In col required_columns -> In col (map fst raw)) ->
     lookup "Timestamp" raw = Some ts -> to_datetime ts = inl e ->
     load file = (None, Some (error_loading_message e))) /\
  (forall df,
     fst (load file) = Some df ->
     exists raw ts t,
       read_csv file = inr raw /\
       (forall col, In col required_columns -> In col (map fst raw)) /\
       lookup "Timestamp" raw = Some ts /\ to_datetime ts = inr t /\
       lookup "Timestamp" df = Some (map CTime t) /\
       map fst df = map fst raw /\
       forall col, col <> "Timestamp" -> lookup col df = lookup col raw) /\
  (forall msg,
     snd (load file) = Some msg ->
     handler (Some file) = [st_error msg]) /\
  (fst (load file) = None ->
   forallb (fun s => negb (is_analysis s)) (handler (Some file)) = true).
Proof.
  pose proof (load_cases File read_csv to_datetime file) as Cases.
  split; [|split; [|split; [|split; [|split; [|split]]]]].
  - destruct Cases as [(e & L & _) | [(L & _) | (raw & ts & t & _ & _ & _ & _ & L)]].
    + right. exists (error_loading_message e). split; [exact L | discriminate].
    + right. exists missing_columns_message. split; [exact L | discriminate].
    + left. eauto.
  - intros raw col R I N.
    apply (load_missing_column File read_csv to_datetime file raw col R I N).
  - intros e R. unfold load_and_validate_data, load_body.
    rewrite R. reflexivity.
  - intros raw ts e R All L T.
    unfold load_and_validate_data, load_body. rewrite R.
    rewrite (proj2 (has_required_columns raw) All). simpl.
    rewrite L, T. reflexivity.
  - intros df S.
    destruct Cases as [(e & L & _) | [(L & _) | (raw & ts & t & R & All & Lk & T & L)]];
      rewrite L in S; simpl in S; try discriminate.
    inversion S; subst df. exists raw, ts, t.
    repeat (split; [assumption|]).
    split; [apply lookup_dict_set|].
    split.
    + apply dict_set_keys, All. simpl. auto.
    + intros col N. apply lookup_dict_set_other. exact N.
  - intros msg S. unfold upload_handler.
    destruct Cases as [(e & L & _) | [(L & _) | (raw & ts & t & _ & _ & _ & _ & L)]];
      rewrite L in S |- *; simpl in S; inversion S; reflexivity.
  - intros S. unfold upload_handler.
    destruct Cases as [(e & L & _) | [(L & _) | (raw & ts & t & _ & _ & _ & _ & L)]];
      rewrite L in S |- *; simpl in S; try discriminate; reflexivity.
Qed.
End LoaderClaim.

Lemma C8_loader_validates_witness :
  load_and_validate_data (option Frame) sample_read_csv sample_to_datetime
    (Some [("User_ID", [CStr "U"]); ("Timestamp", [CInt 5])])
  = (None, Some missing_columns_message) /\
  upload_handler (option Frame) sample_read_csv sample_to_datetime (Some None)
  = [st_error "Error loading data: Error tokenizing data"].
Proof.
  split.
  - apply (proj1 (proj2 (C8_loader_validates (option Frame) sample_read_csv
                           sample_to_datetime _))
             [("User_ID", [CStr "U"]); ("Timestamp", [CInt 5])] "Session_ID").
    + reflexivity.
    + simpl. auto.
    + simpl. intros [E | [E | []]]; discriminate.
  - apply (proj1 (proj2 (proj2 (proj2 (proj2 (proj2
             (C8_loader_validates (option Frame) sample_read_csv
                sample_to_datetime None))))))).
    reflexivity.
Defined.

(* ================================================================== *)
(** * The bounce rate of calculate_key_metrics *)
(* ================================================================== *)

Lemma session_sizes_In (df : list Event) (d : Z) :
  In d (session_sizes df) <->
  exists sid g, In (sid, g) (groupby Session_ID df) /\ len g = d.
Proof.
  unfold session_sizes, groupby_size. rewrite map_map, in_map_iff. simpl.
  split.
  - intros ([sid g] & E & I). eauto.
  - intros (sid & g & I & E). exists (sid, g). auto.
Qed.

Lemma lookup_absent (V : Type) (k : Z) (d : list (Z * V)) :
  (forall v, ~ In (k, v) d) -> lookup k d = None.
Proof.
  intros N. destruct (lookup k d) as [v|] eqn:L; [|reflexivity].
  apply lookup_In in L. destruct (N v L).
Qed.

(** C9. bounce_rate reads the session-size counts at the key 1 without
    checking that the key is there: on every non-empty table in which no
    session has exactly one event the lookup fails and
    [calculate_key_metrics] ends with [KeyError]. *)
Theorem C9_bounce_rate_lookup_fails (df : DataFrame) :
  rows df <> [] ->
  (forall sid g,
     In (sid, g) (groupby Session_ID (rows df)) -> List.length g <> 1%nat) ->
  lookup 1 (value_counts (session_sizes (rows df))) = None /\
  calculate_key_metrics df = (inl (KeyError "1"), df).
Proof.
  intros NE No1.
  assert (lookup 1 (value_counts (session_sizes (rows df))) = None) as L.
  { apply lookup_absent. intros v I. apply value_counts_In in I.
    destruct I as (I & _). apply session_sizes_In in I.
    destruct I as (sid & g & I & E). apply (No1 sid g I).
    unfold len in E. lia. }
  split; [exact L|].
  assert (1 <= nunique (map User_ID (rows df))) as U.
  { apply nunique_pos. destruct (rows df); [congruence | discriminate]. }
  unfold calculate_key_metrics, bind, frame, truediv, getitem, raise, ret.
  simpl.
  destruct (nunique (map User_ID (rows df)) =? 0) eqn:E;
    [apply Z.eqb_eq in E; lia|].
  rewrite L. reflexivity.
Qed.

Lemma C9_bounce_rate_lookup_fails_witness :
  calculate_key_metrics s1_path = (inl (KeyError "1"), s1_path).
Proof.
  apply (C9_bounce_rate_lookup_fails s1_path).
  - discriminate.
  - simpl. intros sid g [E | []]. inversion E. discriminate.
Defined.

(* ================================================================== *)
(** * Frequencies are positive *)
(* ================================================================== *)

Lemma len_filter_pos (A : Type) (f : A -> bool) (l : list A) (a : A) :
  In a l -> f a = true -> 1 <= len (filter f l).
Proof.
  intros I F. assert (In a (filter f l)) as X by (apply filter_In; auto).
  unfold len. destruct (filter f l); [destruct X | simpl; lia].
Qed.

Lemma dropna_In (l : list (option string)) (k : string) :
  In k (dropna l) <-> In (Some k) l.
Proof.
  unfold dropna. rewrite in_flat_map. split.
  - intros ([s|] & I & X); simpl in X; [|destruct X].
    destruct X as [-> | []]. exact I.
  - intros I. exists (Some k). simpl. auto.
Qed.

Lemma session_strings_In (field : Event -> string) (df : list Event)
      (k : string) :
  In k (session_strings field df) <->
  exists sid g, In (sid, g) (groupby Session_ID df) /\
                String.concat "->" (map field g) = k.
Proof.
  unfold session_strings. rewrite in_map_iff. split.
  - intros ([sid g] & E & I). eauto.
  - intros (sid & g & I & E). exists (sid, g). auto.
Qed.

Lemma analyze_session_metrics_unfold (df : DataFrame) :
  result analyze_session_metrics df
  = inr (mkSessionMetrics
           [("Timestamp",
             mean (map (fun g => span_seconds (map Timestamp (snd g)))
                       (groupby Page_Type (rows df))))]
           (head 5 (value_counts
                      (dropna (map snd (group_first Page_Type (rows df))))))
           (head 5 (value_counts
                      (dropna (map snd (group_last Page_Type (rows df))))))
           (head 10 (value_counts (session_sizes (rows df))))).
Proof. reflexivity. Qed.

(** C10. Every frequency in common_paths, action_sequences,
    top_transitions, click_patterns, top_entry_pages, top_exit_pages and
    depth_distribution is at least 1, and its key is a path, sequence,
    transition, click group, entry page, exit page or depth that occurs in
    the table. *)
Theorem C10_frequencies_positive (df : DataFrame) (c : Clickstream)
        (m : SessionMetrics) :
  result analyze_clickstream df = inr c ->
  result analyze_session_metrics df = inr m ->
  (forall k n, In (k, n) (common_paths c) ->
     1 <= n /\
     exists sid g, In (sid, g) (groupby Session_ID (rows df)) /\
                   String.concat "->" (map Page_Type g) = k) /\
  (forall k n, In (k, n) (action_sequences c) ->
     1 <= n /\
     exists sid g, In (sid, g) (groupby Session_ID (rows df)) /\
                   String.concat "->" (map Action g) = k) /\
  (forall p n, In (p, n) (top_transitions c) ->
     1 <= n /\ In p (session_transitions (rows df))) /\
  (forall k n, In (k, n) (click_patterns c) ->
     1 <= n /\
     exists e, In e (rows df) /\ Action e = "Click" /\
               k = (Category e ++ " - " ++ Page_Type e)%string) /\
  (forall k n, In (k, n) (top_entry_pages m) ->
     1 <= n /\
     exists sid g, In (sid, g) (groupby Session_ID (rows df)) /\
                   hd_error (map Page_Type g) = Some k) /\
  (forall k n, In (k, n) (top_exit_pages m) ->
     1 <= n /\
     exists sid g, In (sid, g) (groupby Session_ID (rows df)) /\
                   hd_error (rev (map Page_Type g)) = Some k) /\
  (forall d n, In (d, n) (depth_distribution m) ->
     1 <= n /\
     exists sid g, In (sid, g) (groupby Session_ID (rows df)) /\ len g = d).
Proof.
  intros Rc Rm. unfold result in Rc.
  rewrite analyze_clickstream_unfold in Rc. simpl in Rc.
  rewrite analyze_session_metrics_unfold in Rm.
  inversion Rc; inversion Rm; subst c m; clear Rc Rm. simpl.
  repeat split.
  - apply head_In, value_counts_pos in H. tauto.
  - apply head_In, value_counts_pos in H. apply session_strings_In. tauto.
  - apply head_In, value_counts_pos in H. tauto.
  - apply head_In, value_counts_pos in H. apply session_strings_In. tauto.
  - apply head_In, transitions_In in H. destruct H as (I & ->).
    apply count_pos, I.
  - apply head_In, transitions_In in H. tauto.
  - apply dict_of_In, in_map_iff in H. destruct H as (row & E & I).
    inversion E; subst. apply head_In, sort_by_In, click_counts_In in I.
    destruct I as ((e & Ie & Ec & Ep) & -> & _).
    apply (len_filter_pos _ _ _ e Ie).
    rewrite Ec, Ep, !String.eqb_refl. reflexivity.
  - apply dict_of_In, in_map_iff in H. destruct H as (row & E & I).
    inversion E; subst. apply head_In, sort_by_In, click_counts_In in I.
    destruct I as ((e & Ie & Ec & Ep) & _).
    apply filter_In in Ie. destruct Ie as (Ie & A).
    apply String.eqb_eq in A.
    exists e. unfold click_label. rewrite Ec, Ep. auto.
  - apply head_In, value_counts_pos in H. tauto.
  - apply head_In, value_counts_pos in H. destruct H as (I & _).
    apply dropna_In, in_map_iff in I. destruct I as ([sid o] & E & I).
    simpl in E. subst o. unfold group_first in I. apply in_map_iff in I.
    destruct I as ([sid' g] & E & I). inversion E; subst. eauto.
  - apply head_In, value_counts_pos in H. tauto.
  - apply head_In, value_counts_pos in H. destruct H as (I & _).
    apply dropna_In, in_map_iff in I. destruct I as ([sid o] & E & I).
    simpl in E. subst o. unfold group_last in I. apply in_map_iff in I.
    destruct I as ([sid' g] & E & I). inversion E; subst. eauto.
  - apply head_In, value_counts_pos in H. tauto.
  - apply head_In, value_counts_pos in H. destruct H as (I & _).
    apply session_sizes_In. exact I.
Qed.

Lemma C10_frequencies_positive_witness :
  1 <= 1 /\
  exists sid g, In (sid, g) (groupby Session_ID (rows s1_path)) /\
                String.concat "->" (map Page_Type g)
                = "Home->Product->Cart->Home".
Proof.
  apply (proj1 (C10_frequencies_positive s1_path _ _ eq_refl eq_refl)
               "Home->Product->Cart->Home" 1).
  left. reflexivity.
Defined.

(* ================================================================== *)
(** * Counts add up: groups and value counts partition the rows *)
(* ================================================================== *)

Section Totals.
Context {K : Type} `{KeyOk K}.

Lemma zsum_app (l m : list Z) :
  fold_right Z.add 0 (l ++ m) = fold_right Z.add 0 l + fold_right Z.add 0 m.
Proof. induction l as [|x l IH]; simpl; lia. Qed.

Lemma zsum_perm (l m : list Z) :
  Permutation l m -> fold_right Z.add 0 l = fold_right Z.add 0 m.
Proof. intros P. induction P; simpl; lia. Qed.

Lemma total_perm (d1 d2 : list (K * Z)) :
  Permutation d1 d2 -> total d1 = total d2.
Proof. intros P. unfold total. apply zsum_perm, Permutation_map, P. Qed.

Lemma one_key_matches (x : K) (ks : list K) :
  NoDup ks -> In x ks ->
  fold_right Z.add 0 (map (fun k => if keqb x k then 1 else 0) ks) = 1.
Proof.
  induction ks as [|k ks IH]; simpl; intros ND I; [destruct I|].
  inversion ND as [|? ? Nk ND']; subst.
  destruct (keqb x k) eqn:E.
  - apply keqb_eq in E. subst k.
    assert (fold_right Z.add 0 (map (fun k => if keqb x k then 1 else 0) ks) = 0)
      as Z0.
    { clear IH ND ND' I. induction ks as [|k ks IH]; simpl; [reflexivity|].
      destruct (keqb x k) eqn:E.
      - apply keqb_eq in E. subst k. exfalso. apply Nk. left. reflexivity.
      - rewrite IH; [reflexivity|]. intros I. apply Nk. right. exact I. }
    lia.
  - destruct I as [-> | I]; [rewrite keqb_refl in E; discriminate|].
    rewrite (IH ND' I). lia.
Qed.

(** Whatever the keys, every row falls in exactly one group. *)
Lemma partition_len (A : Type) (key : A -> K) (df : list A) (ks : list K) :
  NoDup ks -> (forall a, In a df -> In (key a) ks) ->
  fold_right Z.add 0
    (map (fun k => len (filter (fun a => keqb (key a) k) df)) ks)
  = len df.
Proof.
  intros ND. induction df as [|a r IH]; intros C.
  - clear. induction ks as [|k ks IHk]; [reflexivity|].
    simpl in *. unfold len in *. simpl in *. lia.
  - specialize (IH (fun a' I => C a' (or_intror I))).
    pose proof (one_key_matches (key a) ks ND (C a (or_introl eq_refl))) as O.
    assert (forall ks',
              fold_right Z.add 0
                (map (fun k => len (filter (fun a0 => keqb (key a0) k) (a :: r)))
                     ks')
              = fold_right Z.add 0
                  (map (fun k => if keqb (key a) k then 1 else 0) ks')
                + fold_right Z.add 0
                    (map (fun k => len (filter (fun a0 => keqb (key a0) k) r))
                         ks')) as Split.
    { induction ks' as [|k ks' IHk]; [reflexivity|].
      cbn [map fold_right]. rewrite IHk. unfold len. cbn [filter].
      destruct (keqb (key a) k); cbn [List.length]; lia. }
    rewrite Split, O, IH. unfold len. cbn [List.length]. lia.
Qed.

Lemma groupby_size_total (A : Type) (key : A -> K) (df : list A) :
  total (groupby_size key df) = len df.
Proof.
  unfold total, groupby_size, groupby. rewrite !map_map. simpl.
  apply partition_len.
  - eapply Permutation_NoDup; [apply sort_by_perm | apply unique_NoDup].
  - intros a I. apply sort_by_In, unique_In, in_map, I.
Qed.

Lemma value_counts_total (l : list K) : total (value_counts l) = len l.
Proof.
  unfold value_counts.
  rewrite <- (total_perm _ _ (sort_by_perm _ _ _)).
  unfold total. rewrite map_map. simpl. unfold count.
  apply (partition_len K (fun k => k) l (unique l)).
  - apply unique_NoDup.
  - intros a I. apply unique_In, I.
Qed.

Lemma groupby_length (A : Type) (key : A -> K) (df : list A) :
  len (groupby key df) = nunique (map key df).
Proof.
  unfold groupby, nunique, len. rewrite length_map.
  rewrite <- (Permutation_length (sort_by_perm _ _ _)). reflexivity.
Qed.

Lemma value_counts_keys_NoDup (l : list K) :
  NoDup (map fst (value_counts l)).
Proof.
  unfold value_counts.
  eapply Permutation_NoDup;
    [apply Permutation_map, sort_by_perm|].
  rewrite map_map. simpl. rewrite map_id. apply unique_NoDup.
Qed.

Lemma value_counts_length (l : list K) :
  len (value_counts l) = nunique l.
Proof.
  unfold value_counts, nunique, len.
  rewrite <- (Permutation_length (sort_by_perm _ _ _)), length_map.
  reflexivity.
Qed.

Lemma groupby_size_keys_NoDup (A : Type) (key : A -> K) (df : list A) :
  NoDup (map fst (groupby_size key df)).
Proof.
  unfold groupby_size. rewrite map_map. simpl. apply groupby_keys_NoDup.
Qed.
End Totals.

(** Tables of counts sorted by descending count. *)
Lemma desc_total (K : Type) (a b : K * Z) :
  (snd b <=? snd a) = true \/ (snd a <=? snd b) = true.
Proof. rewrite !Z.leb_le. lia. Qed.

Lemma desc_trans (K : Type) (a b c : K * Z) :
  (snd b <=? snd a) = true -> (snd c <=? snd b) = true ->
  (snd c <=? snd a) = true.
Proof. rewrite !Z.leb_le. lia. Qed.

Lemma sorted_split (A : Type) (R : A -> A -> Prop) (n : nat) (l : list A)
      (x y : A) :
  StronglySorted R l -> In x (firstn n l) -> In y (skipn n l) -> R x y.
Proof.
  intros S. revert n. induction S as [|a l S IH F]; intros n Ix Iy.
  - rewrite firstn_nil in Ix. destruct Ix.
  - destruct n as [|n]; simpl in Ix, Iy; [destruct Ix|].
    destruct Ix as [<- | Ix].
    + rewrite Forall_forall in F. apply F.
      rewrite <- (firstn_skipn n l). apply in_or_app. right. exact Iy.
    + apply (IH n); assumption.
Qed.

(** [value_counts().head(n)] keeps the [n] largest counts. *)
Lemma value_counts_head_top (K : Type) `{KeyOk K} (n : nat) (l : list K)
      (x y : K * Z) :
  In x (head n (value_counts l)) -> In y (value_counts l) ->
  ~ In y (head n (value_counts l)) -> snd y <= snd x.
Proof.
  intros Ix Iy Ny. apply Z.leb_le.
  apply (sorted_split (K * Z) (fun a b => (snd b <=? snd a) = true) n
                      (value_counts l)).
  - unfold value_counts.
    apply (sort_by_sorted (K * Z) _ (desc_total K) (desc_trans K)).
  - exact Ix.
  - rewrite <- (firstn_skipn n (value_counts l)) in Iy.
    apply in_app_or in Iy. destruct Iy as [Iy | Iy]; [|exact Iy].
    destruct (Ny Iy).
Qed.

Lemma total_head_le (K : Type) (n : nat) (d : list (K * Z)) :
  Forall (fun kv => 0 <= snd kv) d ->
  total (head n d) <= total d /\
  ((List.length d <= n)%nat -> head n d = d).
Proof.
  intros F. split.
  - unfold head. rewrite <- (firstn_skipn n d) at 2.
    unfold total. rewrite map_app, zsum_app.
    assert (0 <= fold_right Z.add 0 (map snd (skipn n d))) as P.
    { assert (Forall (fun kv => 0 <= snd kv) (skipn n d)) as F'.
      { rewrite Forall_forall in F |- *. intros kv I. apply F.
        rewrite <- (firstn_skipn n d). apply in_or_app. right. exact I. }
      induction F' as [|kv r P F' IH]; simpl; lia. }
    lia.
  - intros L. unfold head. apply firstn_all2. exact L.
Qed.

(* ================================================================== *)
(** * calculate_key_metrics when it succeeds *)
(* ================================================================== *)

Lemma numbers_of_int (l : list Z) : numbers (map of_int l) = map inject_Z l.
Proof. induction l as [|x l IH]; simpl; [|rewrite IH]; reflexivity. Qed.

Lemma Qsum_inject (l : list Z) :
  (Qsum (map inject_Z l) == inject_Z (fold_right Z.add 0%Z l))%Q.
Proof.
  induction l as [|x l IH]; simpl; [reflexivity|].
  rewrite IH, inject_Z_plus. reflexivity.
Qed.

Lemma mean_of_ints (l : list Z) :
  l <> [] ->
  exists q, mean (map of_int l) = Fl q /\
            (q == inject_Z (fold_right Z.add 0%Z l) / inject_Z (len l))%Q.
Proof.
  intros NE. unfold mean. rewrite numbers_of_int.
  destruct l as [|x r]; [congruence|].
  change (map inject_Z (x :: r)) with (inject_Z x :: map inject_Z r).
  eexists. split; [reflexivity|].
  change (inject_Z x :: map inject_Z r) with (map inject_Z (x :: r)).
  rewrite Qsum_inject. unfold len. rewrite length_map. reflexivity.
Qed.

Lemma session_sizes_total (df : list Event) :
  fold_right Z.add 0 (session_sizes df) = len df /\
  len (session_sizes df) = nunique (map Session_ID df).
Proof.
  split.
  - apply (groupby_size_total Event Session_ID df).
  - unfold session_sizes, groupby_size, len. rewrite !length_map.
    apply (groupby_length Event Session_ID df).
Qed.

Lemma single_event_count (df : list Event) :
  count 1 (session_sizes df) = single_event_sessions df.
Proof.
  unfold session_sizes, groupby_size, single_event_sessions.
  rewrite map_map, count_map. simpl. unfold len. f_equal. f_equal.
  apply filter_ext. intros g.
  destruct (Nat.eqb_spec (List.length (snd g)) 1) as [E | N].
  - rewrite E. reflexivity.
  - apply Z.eqb_neq. lia.
Qed.

Lemma single_event_bounds (df : list Event) :
  0 <= single_event_sessions df <= nunique (map Session_ID df).
Proof.
  rewrite <- (groupby_length Event Session_ID df).
  unfold single_event_sessions, len. split; [lia|].
  apply inj_le, filter_length_le.
Qed.

(** When some session has exactly one event, the metrics are returned and
    the table is left as it was: the two totals are the distinct counts,
    both rates are percentages, the bounce rate is the share of one-event
    sessions, and the average is rows per session. *)
Theorem key_metrics_values (df : DataFrame) (sid : string) (e : Event) :
  In (sid, [e]) (groupby Session_ID (rows df)) ->
  let users := nunique (map User_ID (rows df)) in
  let sessions := nunique (map Session_ID (rows df)) in
  exists m,
    calculate_key_metrics df = (inr m, df) /\
    total_users m = users /\ 1 <= users /\
    total_sessions m = sessions /\ 1 <= sessions /\
    (0 <= conversion_rate m <= 100)%Q /\
    bounce_rate m
    = (inject_Z (single_event_sessions (rows df)) / inject_Z sessions * 100)%Q /\
    1 <= single_event_sessions (rows df) /\
    (0 <= bounce_rate m <= 100)%Q /\
    exists q, avg_pages_per_session m = Fl q /\
              (q == inject_Z (len (rows df)) / inject_Z sessions)%Q.
Proof.
  intros I users sessions.
  assert (rows df <> []) as NE.
  { apply groupby_In in I. destruct I as (_ & a & Ia & _).
    intros E. rewrite E in Ia. destruct Ia. }
  assert (1 <= users) as U.
  { apply nunique_pos. destruct (rows df); [congruence | discriminate]. }
  assert (1 <= sessions) as S.
  { apply nunique_pos. destruct (rows df); [congruence | discriminate]. }
  assert (In 1 (session_sizes (rows df))) as I1.
  { apply session_sizes_In. exists sid, [e]. auto. }
  assert (lookup 1 (value_counts (session_sizes (rows df)))
          = Some (single_event_sessions (rows df))) as L.
  { apply In_lookup; [apply value_counts_keys_NoDup|].
    apply value_counts_In. split; [exact I1|].
    symmetry. apply single_event_count. }
  assert (1 <= single_event_sessions (rows df)) as S1.
  { rewrite <- single_event_count. apply count_pos, I1. }
  pose proof (single_event_bounds (rows df)) as SB. fold sessions in SB.
  destruct (mean_of_ints (session_sizes (rows df))) as (q & Mq & Eq).
  { intros E. rewrite E in I1. destruct I1. }
  destruct (session_sizes_total (rows df)) as (T1 & T2).
  rewrite T1, T2 in Eq. fold sessions in Eq.
  exists (mkMetrics users sessions
            (inject_Z (nunique (map User_ID
                         (filter (fun e => Action e =? "Purchase")%string
                                 (rows df))))
             / inject_Z users * 100)%Q
            (Fl q)
            (inject_Z (single_event_sessions (rows df))
             / inject_Z sessions * 100)%Q).
  split.
  { unfold calculate_key_metrics, bind, frame, truediv, getitem, raise, ret.
    cbn [rows fst snd]. fold users. fold sessions.
    destruct (users =? 0) eqn:E; [apply Z.eqb_eq in E; lia|].
    rewrite L. unfold nunique in sessions. fold sessions.
    destruct (sessions =? 0) eqn:E'; [apply Z.eqb_eq in E'; lia|].
    rewrite Mq. reflexivity. }
  cbn [total_users total_sessions conversion_rate bounce_rate
       avg_pages_per_session].
  repeat split; try assumption; try reflexivity.
  - apply rate_bounds; [|exact U]. split; [apply len_nonneg|].
    apply nunique_le. intros u Iu. apply in_map_iff in Iu.
    destruct Iu as (x & Ex & Ix). apply filter_In in Ix.
    apply in_map_iff. exists x. tauto.
  - apply rate_bounds; [|exact U]. split; [apply len_nonneg|].
    apply nunique_le. intros u Iu. apply in_map_iff in Iu.
    destruct Iu as (x & Ex & Ix). apply filter_In in Ix.
    apply in_map_iff. exists x. tauto.
  - apply rate_bounds; [lia | exact S].
  - apply rate_bounds; [lia | exact S].
  - exists q. split; [reflexivity | exact Eq].
Qed.

Lemma key_metrics_values_witness :
  exists m,
    calculate_key_metrics two_sessions = (inr m, two_sessions) /\
    total_users m = 1 /\ total_sessions m = 2 /\
    bounce_rate m = (inject_Z 1 / inject_Z 2 * 100)%Q.
Proof.
  destruct (key_metrics_values two_sessions "S1"
              (ev "U" "S1" 0 "Home" "Books" "View"))
    as (m & R & U & _ & S & _ & _ & B & _).
  - simpl. auto.
  - exists m. auto.
Defined.

(** The metrics are returned exactly when some session has a single event;
    a table without rows stops at the division by the number of users. *)
Theorem key_metrics_succeeds_iff (df : DataFrame) :
  ((exists m, result calculate_key_metrics df = inr m) <->
   exists sid e, In (sid, [e]) (groupby Session_ID (rows df))) /\
  (rows df = [] -> result calculate_key_metrics df = inl ZeroDivisionError).
Proof.
  split; [split|].
  - intros (m & R).
    destruct (rows df) as [|x r] eqn:E.
    + unfold result, calculate_key_metrics, bind, frame, truediv, raise in R.
      rewrite E in R. simpl in R. discriminate.
    + assert (~ (forall sid g, In (sid, g) (groupby Session_ID (rows df)) ->
                              List.length g <> 1%nat)) as N.
      { intros A.
        assert (lookup 1 (value_counts (session_sizes (rows df))) = None) as L.
        { apply lookup_absent. intros v I. apply value_counts_In in I.
          destruct I as (I & _). apply session_sizes_In in I.
          destruct I as (sid & g & I & Eg). apply (A sid g I).
          unfold len in Eg. lia. }
        unfold result, calculate_key_metrics, bind, frame, truediv, getitem,
          raise, ret in R. cbn [rows fst snd] in R.
        destruct (nunique (map User_ID (rows df)) =? 0);
          cbn [fst] in R; [discriminate|].
        rewrite L in R. discriminate. }
      rewrite <- E.
      assert (exists g, In g (groupby Session_ID (rows df)) /\
                        List.length (snd g) = 1%nat) as (g & Ig & Lg).
      { destruct (Exists_dec (fun g : string * list Event =>
                                List.length (snd g) = 1%nat)
                    (groupby Session_ID (rows df))) as [X | X].
        - intros g. apply Nat.eq_dec.
        - apply Exists_exists in X. exact X.
        - exfalso. apply N. intros sid g I Lg. apply X.
          apply Exists_exists. exists (sid, g). auto. }
      destruct g as [sid [|e0 [|e1 g]]]; simpl in Lg; try discriminate.
      eauto.
  - intros (sid & e & I).
    destruct (key_metrics_values df sid e I) as (m & R & _).
    exists m. unfold result. rewrite R. reflexivity.
  - intros E. unfold result, calculate_key_metrics, bind, frame, truediv, raise.
    rewrite E. reflexivity.
Qed.

Lemma key_metrics_succeeds_iff_witness :
  result calculate_key_metrics empty_table = inl ZeroDivisionError.
Proof.
  apply (proj2 (key_metrics_succeeds_iff empty_table)). reflexivity.
Defined.

(* ================================================================== *)
(** * More on analyze_clickstream *)
(* ================================================================== *)

Lemma page_views_are_sizes (df : list Event) :
  map (fun s => of_int (page_views (snd s))) (session_stats df)
  = map of_int (session_sizes df).
Proof.
  unfold session_stats, session_sizes, groupby_size. rewrite !map_map.
  apply map_ext. intros g. simpl. unfold len. rewrite length_map.
  reflexivity.
Qed.

Lemma Qsum_nonneg (l : list Q) :
  Forall (fun q => (0 <= q)%Q) l -> (0 <= Qsum l)%Q.
Proof.
  induction 1 as [|q l P F IH]; simpl; [apply Qle_refl|].
  rewrite <- (Qplus_0_r 0). apply Qplus_le_compat; assumption.
Qed.

Lemma span_seconds_nonneg (ts : list Z) :
  ts <> [] -> exists q, span_seconds ts = Fl q /\ (0 <= q)%Q.
Proof.
  destruct ts as [|t r]; [congruence|]. intros _.
  eexists. split; [reflexivity|].
  destruct (fold_max_spec r t) as (MI & _).
  destruct (fold_min_spec r t) as (_ & mB).
  specialize (mB _ MI). unfold Qle. simpl. lia.
Qed.

Lemma durations_nonneg (df : list Event) :
  Forall (fun q => (0 <= q)%Q)
         (numbers (map (fun s => duration_seconds (snd s)) (session_stats df))).
Proof.
  unfold session_stats. rewrite map_map. simpl.
  assert (forall g, In g (groupby Session_ID df) -> snd g <> []) as NE.
  { intros [sid g] I. simpl.
    exact (groupby_nonempty Event Session_ID df sid g I). }
  induction (groupby Session_ID df) as [|g G IH]; simpl; [constructor|].
  destruct (span_seconds_nonneg (map Timestamp (snd g))) as (q & E & P).
  { intros E. apply (NE g (or_introl eq_refl)).
    destruct (snd g); [reflexivity | discriminate]. }
  rewrite E. constructor; [exact P|].
  apply IH. intros g' I. apply NE. right. exact I.
Qed.

Lemma durations_count (df : list Event) :
  List.length
    (numbers (map (fun s => duration_seconds (snd s)) (session_stats df)))
  = List.length (groupby Session_ID df).
Proof.
  unfold session_stats. rewrite map_map. simpl.
  assert (forall g, In g (groupby Session_ID df) -> snd g <> []) as NE.
  { intros [sid g] I. simpl.
    exact (groupby_nonempty Event Session_ID df sid g I). }
  induction (groupby Session_ID df) as [|g G IH]; simpl; [reflexivity|].
  destruct (span_seconds_nonneg (map Timestamp (snd g))) as (q & E & _).
  { intros E. apply (NE g (or_introl eq_refl)).
    destruct (snd g); [reflexivity | discriminate]. }
  rewrite E. simpl. f_equal. apply IH. intros g' I. apply NE. right. exact I.
Qed.

(** On a table with at least one row the two averages are numbers: the
    average number of page views is rows per session, and the average
    duration is not negative. *)
Theorem clickstream_averages (df : DataFrame) (c : Clickstream) :
  rows df <> [] ->
  result analyze_clickstream df = inr c ->
  (exists q, avg_page_views c = Fl q /\
     (q == inject_Z (len (rows df))
           / inject_Z (nunique (map Session_ID (rows df))))%Q) /\
  (exists d, avg_session_duration c = Fl d /\ (0 <= d)%Q).
Proof.
  intros NE R. unfold result in R. rewrite analyze_clickstream_unfold in R.
  cbn [fst] in R. injection R as <-.
  cbn [avg_page_views avg_session_duration].
  assert (1 <= nunique (map Session_ID (rows df))) as S.
  { apply nunique_pos. destruct (rows df); [congruence | discriminate]. }
  destruct (session_sizes_total (rows df)) as (T1 & T2).
  split.
  - rewrite page_views_are_sizes.
    destruct (mean_of_ints (session_sizes (rows df))) as (q & Mq & Eq).
    { intros E. rewrite E in T2. unfold len in T2. simpl in T2. lia. }
    exists q. split; [exact Mq|]. rewrite T1, T2 in Eq. exact Eq.
  - pose proof (durations_nonneg (rows df)) as F.
    unfold mean.
    destruct (numbers (map (fun s => duration_seconds (snd s))
                           (session_stats (rows df)))) as [|x r] eqn:N.
    + exfalso. pose proof (durations_count (rows df)) as DC.
      rewrite N in DC. symmetry in DC. apply length_zero_iff_nil in DC.
      pose proof (groupby_length Event Session_ID (rows df)) as GL.
      rewrite DC in GL. unfold len in GL. simpl in GL. lia.
    + eexists. split; [reflexivity|].
      apply Qle_shift_div_l.
      * unfold len, Qlt. simpl. lia.
      * rewrite Qmult_0_l. apply (Qsum_nonneg (x :: r)). exact F.
Qed.

Lemma clickstream_averages_witness :
  exists c,
    result analyze_clickstream two_sessions = inr c /\
    exists q, avg_page_views c = Fl q /\ (q == 3 # 2)%Q.
Proof.
  eexists. split; [reflexivity|].
  destruct (clickstream_averages two_sessions _ ltac:(discriminate) eq_refl)
    as ((q & E & Q) & _).
  exists q. split; [exact E|]. rewrite Q. reflexivity.
Defined.

Lemma adjacent_pairs_len (l : list string) :
  l <> [] -> len (adjacent_pairs l) = len l - 1.
Proof.
  induction l as [|a r IH]; [congruence|]. intros _.
  destruct r as [|b r]; [reflexivity|].
  change (adjacent_pairs (a :: b :: r)) with ((a, b) :: adjacent_pairs (b :: r)).
  unfold len in *. cbn [List.length] in *.
  specialize (IH ltac:(discriminate)). lia.
Qed.

Lemma flat_map_len (A B : Type) (f : A -> list B) (l : list A) :
  len (flat_map f l) = fold_right Z.add 0 (map (fun a => len (f a)) l).
Proof.
  induction l as [|a l IH]; [reflexivity|].
  cbn [flat_map map fold_right]. rewrite <- IH. unfold len.
  rewrite length_app. lia.
Qed.

Lemma session_transitions_len (df : list Event) :
  len (session_transitions df) = len df - nunique (map Session_ID df).
Proof.
  unfold session_transitions. rewrite flat_map_len.
  rewrite <- (groupby_size_total Event Session_ID df).
  rewrite <- (groupby_length Event Session_ID df).
  unfold total, groupby_size. rewrite map_map. simpl.
  assert (forall g, In g (groupby Session_ID df) -> snd g <> []) as NE.
  { intros [sid g] I. simpl.
    exact (groupby_nonempty Event Session_ID df sid g I). }
  induction (groupby Session_ID df) as [|g G IH]; [reflexivity|].
  cbn [map fold_right]. rewrite IH by (intros g' I; apply NE; right; exact I).
  rewrite adjacent_pairs_len.
  - unfold len. rewrite length_map. cbn [List.length]. lia.
  - intros E. apply (NE g (or_introl eq_refl)).
    destruct (snd g); [reflexivity | discriminate].
Qed.

Lemma shift_next_length (df : list Event) :
  List.length (shift_next df) = List.length df.
Proof.
  induction df as [|e r IH]; simpl; [reflexivity | rewrite IH; reflexivity].
Qed.



Section MoreDicts.
Context {K : Type} `{KeyOk K}.

Lemma dict_set_again (V : Type) (k : K) (v w : V) (d : list (K * V)) :
  dict_set k v (dict_set k w d) = dict_set k v d.
Proof.
  induction d as [|[k' v'] d IH]; simpl.
  - rewrite keqb_refl. reflexivity.
  - destruct (keqb k' k) eqn:E; simpl; rewrite E; [reflexivity|].
    f_equal. exact IH.
Qed.

Lemma NoDup_head_keys (V : Type) (n : nat) (d : list (K * V)) :
  NoDup (map fst d) -> NoDup (map fst (head n d)).
Proof.
  unfold head. intros N. rewrite <- (firstn_skipn n d), map_app in N.
  apply NoDup_app_remove_r in N. exact N.
Qed.
End MoreDicts.

(** Running analyze_clickstream again on the table it has left gives the
    same output and leaves the same table: the column next_page is
    overwritten, not added a second time. *)
Theorem analyze_clickstream_idempotent (df : DataFrame) :
  analyze_clickstream (frame_after analyze_clickstream df)
  = (result analyze_clickstream df, frame_after analyze_clickstream df).
Proof.
  rewrite (analyze_clickstream_reads (frame_after analyze_clickstream df)).
  rewrite analyze_clickstream_frame. unfold bare. cbn [rows added].
  rewrite dict_set_again.
  pose proof (analyze_clickstream_reads df) as R.
  unfold result at 2. rewrite R. reflexivity.
Qed.

(** common_paths and action_sequences are the ten most frequent keys: at
    most ten entries with distinct keys, no count among them smaller than a
    count left out, and counts that add up to at most the number of
    sessions (to exactly that number when nothing is left out). *)
Theorem sequences_are_top_ten (df : DataFrame) (c : Clickstream)
        (field : Event -> string) (kept : list (string * Z)) :
  result analyze_clickstream df = inr c ->
  (field = Page_Type /\ kept = common_paths c) \/
  (field = Action /\ kept = action_sequences c) ->
  let all := value_counts (session_strings field (rows df)) in
  (List.length kept <= 10)%nat /\
  NoDup (map fst kept) /\
  (forall x y, In x kept -> In y all -> ~ In y kept -> snd y <= snd x) /\
  total all = nunique (map Session_ID (rows df)) /\
  total kept <= nunique (map Session_ID (rows df)) /\
  ((List.length all <= 10)%nat -> kept = all).
Proof.
  intros R Which all.
  assert (kept = head 10 all) as ->.
  { unfold result in R. rewrite analyze_clickstream_unfold in R.
    cbn [fst] in R. injection R as <-.
    destruct Which as [(-> & ->) | (-> & ->)]; reflexivity. }
  assert (total all = nunique (map Session_ID (rows df))) as T.
  { unfold all. rewrite value_counts_total.
    unfold session_strings, len. rewrite length_map.
    apply (groupby_length Event Session_ID (rows df)). }
  assert (Forall (fun kv : string * Z => 0 <= snd kv) all) as P.
  { apply Forall_forall. intros [k n] I. simpl.
    apply value_counts_pos in I. lia. }
  split; [apply head_length|].
  split; [apply NoDup_head_keys, value_counts_keys_NoDup|].
  split; [intros x y; apply value_counts_head_top; exact KeyOk_string|].
  split; [exact T|].
  split; [rewrite <- T; apply total_head_le, P|].
  apply total_head_le, P.
Qed.

Lemma sequences_are_top_ten_witness :
  exists c,
    result analyze_clickstream s1_path = inr c /\
    common_paths c = value_counts (session_strings Page_Type (rows s1_path)).
Proof.
  eexists. split; [reflexivity|].
  apply (sequences_are_top_ten s1_path _ Page_Type _ eq_refl).
  - left. split; reflexivity.
  - simpl. lia.
Defined.

(* ================================================================== *)
(** * analyze_user_behavior *)
(* ================================================================== *)

Lemma len_map (A B : Type) (f : A -> B) (l : list A) :
  len (map f l) = len l.
Proof. unfold len. rewrite length_map. reflexivity. Qed.

Lemma snd_combine_map (A B : Type) (f : A -> B) (l : list A) :
  map snd (combine l (map f l)) = map f l.
Proof. induction l as [|a l IH]; simpl; [|rewrite IH]; reflexivity. Qed.

Lemma ints_CInt (A : Type) (f : A -> Z) (l : list A) :
  ints (map (fun a => CInt (f a)) l) = map f l.
Proof. induction l as [|a l IH]; simpl; [|rewrite IH]; reflexivity. Qed.

Lemma analyze_user_behavior_unfold (df : DataFrame) :
  analyze_user_behavior df
  = (inr (mkBehavior
            (value_counts (map Device_Type (rows df)))
            (head 5 (value_counts (map Category (rows df))))
            (value_counts (map Action (rows df)))
            (value_counts (map Platform (rows df)))
            (groupby_size (fun h : Z => h)
                          (map (fun e => hour (Timestamp e)) (rows df)))),
     mkDF (rows df)
          (dict_set "Hour" (map (fun e => CInt (hour (Timestamp e))) (rows df))
                    (added df))).
Proof.
  unfold analyze_user_behavior, bind, frame, setitem, ret, with_column.
  cbn [rows added fst snd]. rewrite lookup_dict_set.
  rewrite snd_combine_map, ints_CInt. reflexivity.
Qed.

(** analyze_user_behavior keeps every row and every other column, sets the
    column Hour to the hour of each row's timestamp, and run again on the
    table it has left returns the same output and the same table. *)
Theorem analyze_user_behavior_frame (df : DataFrame) :
  let after := frame_after analyze_user_behavior df in
  rows after = rows df /\
  lookup "Hour" (added after)
  = Some (map (fun e => CInt (hour (Timestamp e))) (rows df)) /\
  (forall name, name <> "Hour" ->
     lookup name (added after) = lookup name (added df)) /\
  analyze_user_behavior after = (result analyze_user_behavior df, after).
Proof.
  intros after. unfold after, frame_after, result.
  rewrite (analyze_user_behavior_unfold df). cbn [fst snd rows added].
  split; [reflexivity|]. split; [apply lookup_dict_set|].
  split; [intros name N; apply lookup_dict_set_other; exact N|].
  rewrite analyze_user_behavior_unfold. cbn [rows added].
  rewrite dict_set_again. reflexivity.
Qed.

Lemma analyze_user_behavior_frame_witness :
  lookup "next_page"
         (added (frame_after analyze_user_behavior
                   (frame_after analyze_clickstream s1_path)))
  = Some [CStr "Product"; CStr "Cart"; CStr "Home"; CNaN].
Proof.
  rewrite (proj1 (proj2 (proj2 (analyze_user_behavior_frame
                                  (frame_after analyze_clickstream s1_path))))).
  - reflexivity.
  - discriminate.
Defined.

Lemma hour_range (ns : Z) : 0 <= hour ns <= 23.
Proof. unfold hour. pose proof (Z.mod_pos_bound (ns / 3600000000000) 24). lia. Qed.

(** hourly_activity has one entry per hour of the day in which some event
    falls, with the number of those events: its hours are between 0 and 23,
    there are at most 24 of them, and the counts add up to the number of
    rows. *)
Theorem hourly_activity_counts_rows (df : DataFrame) (b : Behavior) :
  result analyze_user_behavior df = inr b ->
  (forall h n,
     In (h, n) (hourly_activity b) <->
     n = len (filter (fun e => hour (Timestamp e) =? h) (rows df)) /\
     exists e, In e (rows df) /\ hour (Timestamp e) = h) /\
  (forall h n, In (h, n) (hourly_activity b) -> 0 <= h <= 23 /\ 1 <= n) /\
  NoDup (map fst (hourly_activity b)) /\
  (List.length (hourly_activity b) <= 24)%nat /\
  total (hourly_activity b) = len (rows df).
Proof.
  intros R. unfold result in R. rewrite analyze_user_behavior_unfold in R.
  cbn [fst] in R. injection R as <-. cbn [hourly_activity].
  assert (forall h n,
            In (h, n) (groupby_size (fun h : Z => h)
                         (map (fun e => hour (Timestamp e)) (rows df))) <->
            n = len (filter (fun e => hour (Timestamp e) =? h) (rows df)) /\
            exists e, In e (rows df) /\ hour (Timestamp e) = h) as Spec.
  { intros h n. rewrite groupby_size_In.
    assert (len (filter (fun a : Z => keqb a h)
                        (map (fun e => hour (Timestamp e)) (rows df)))
            = len (filter (fun e => hour (Timestamp e) =? h) (rows df))) as ->.
    { exact (count_map Event (fun e => hour (Timestamp e)) h (rows df)). }
    split; intros (-> & X); (split; [reflexivity|]).
    - destruct X as (a & Ia & <-). apply in_map_iff in Ia.
      destruct Ia as (e & E & Ie). eauto.
    - destruct X as (e & Ie & <-). exists (hour (Timestamp e)).
      split; [|reflexivity].
      apply (in_map (fun e => hour (Timestamp e))). exact Ie. }
  assert (NoDup (map fst (groupby_size (fun h : Z => h)
                            (map (fun e => hour (Timestamp e)) (rows df)))))
    as ND by apply groupby_size_keys_NoDup.
  split; [exact Spec|]. split; [|split; [exact ND|split]].
  - intros h n I. split.
    + apply Spec in I. destruct I as (_ & e & _ & <-). apply hour_range.
    + eapply groupby_size_pos. exact I.
  - rewrite <- (length_map fst).
    change 24%nat with (List.length (map Z.of_nat (seq 0 24))).
    apply NoDup_incl_length; [exact ND|].
    intros h I. apply in_map_iff in I. destruct I as ([h' n] & <- & I).
    apply Spec in I. destruct I as (_ & e & _ & <-). cbn [fst].
    pose proof (hour_range (Timestamp e)) as Rg.
    apply in_map_iff. exists (Z.to_nat (hour (Timestamp e))).
    split; [lia|]. apply in_seq. lia.
  - rewrite (groupby_size_total Z (fun h => h)). unfold len.
    rewrite length_map. reflexivity.
Qed.

Lemma hourly_activity_counts_rows_witness :
  exists b,
    result analyze_user_behavior two_sessions = inr b /\
    total (hourly_activity b) = 3.
Proof.
  eexists. split; [reflexivity|].
  apply (hourly_activity_counts_rows two_sessions _ eq_refl).
Defined.

(** The four distributions count rows: device_usage, action_dist and
    platform_dist each add up to the number of rows and give every value
    its number of rows; category_popularity is the five most frequent
    categories. *)
Theorem behavior_distributions_count_rows (df : DataFrame) (b : Behavior) :
  result analyze_user_behavior df = inr b ->
  total (device_usage b) = len (rows df) /\
  total (action_dist b) = len (rows df) /\
  total (platform_dist b) = len (rows df) /\
  (forall a n,
     In (a, n) (action_dist b) <->
     (exists e, In e (rows df) /\ Action e = a) /\
     n = len (filter (fun e => Action e =? a)%string (rows df))) /\
  (List.length (category_popularity b) <= 5)%nat /\
  (forall x y,
     In x (category_popularity b) ->
     In y (value_counts (map Category (rows df))) ->
     ~ In y (category_popularity b) -> snd y <= snd x) /\
  total (category_popularity b) <= len (rows df).
Proof.
  intros R. unfold result in R. rewrite analyze_user_behavior_unfold in R.
  cbn [fst] in R. injection R as <-.
  cbn [device_usage action_dist platform_dist category_popularity].
  rewrite !value_counts_total, !len_map.
  split; [reflexivity|]. split; [reflexivity|]. split; [reflexivity|].
  split.
  { intros a n. rewrite value_counts_In, in_map_iff.
    rewrite (count_map Event Action a (rows df)). split.
    - intros ((e & E & I) & ->). eauto.
    - intros ((e & I & E) & ->). eauto. }
  split; [apply head_length|].
  split; [intros x y; apply value_counts_head_top; exact KeyOk_string|].
  rewrite <- (len_map _ _ Category (rows df)).
  rewrite <- (value_counts_total (map Category (rows df))).
  apply total_head_le. apply Forall_forall. intros [k n] I. simpl.
  apply value_counts_pos in I. lia.
Qed.

Lemma behavior_distributions_count_rows_witness :
  exists b,
    result analyze_user_behavior two_sessions = inr b /\
    total (action_dist b) = 3.
Proof.
  eexists. split; [reflexivity|].
  apply (behavior_distributions_count_rows two_sessions _ eq_refl).
Defined.

(* ================================================================== *)
(** * More on the funnel and on the session aggregates *)
(* ================================================================== *)

Lemma nunique_le_len (l : list string) : nunique l <= len l.
Proof.
  unfold nunique, len. apply inj_le.
  apply NoDup_incl_length; [apply unique_NoDup|].
  intros x I. rewrite unique_In in I. exact I.
Qed.

Lemma percent_zero (c t : Z) :
  1 <= t -> ((inject_Z c / inject_Z t * 100 == 0)%Q <-> c = 0).
Proof.
  intros T. destruct t as [|t|t]; try lia.
  unfold Qeq, Qdiv, Qmult, Qinv, inject_Z. simpl. lia.
Qed.

Lemma percent_full (c t : Z) :
  1 <= t -> ((inject_Z c / inject_Z t * 100 == 100)%Q <-> c = t).
Proof.
  intros T. destruct t as [|t|t]; try lia.
  unfold Qeq, Qdiv, Qmult, Qinv, inject_Z. simpl. lia.
Qed.

(** A stage of the funnel counts sessions, not events: its count is at most
    the number of events with that action, it is 0 exactly when no event has
    the action, and its rate is 0 or 100 exactly when no session or every
    session has one. *)
Theorem funnel_stage_against_events (df : DataFrame)
        (stages : list (string * Z)) (rates : list (string * Q))
        (stage : string) (c : Z) :
  result analyze_conversion_funnel df = inr (stages, rates) ->
  In (stage, c) stages ->
  c <= len (filter (fun e => Action e =? stage)%string (rows df)) /\
  (c = 0 <-> forall e, In e (rows df) -> Action e <> stage) /\
  exists r,
    In (stage, r) rates /\
    ((r == 0)%Q <-> c = 0) /\
    ((r == 100)%Q <-> c = nunique (map Session_ID (rows df))).
Proof.
  intros R I.
  assert (rows df <> []) as NE.
  { intros E. unfold result, analyze_conversion_funnel, bind, frame,
      funnel_stages_of, for_each, truediv, bind, raise in R.
    rewrite E in R. simpl in R. discriminate. }
  assert (1 <= nunique (map Session_ID (rows df))) as T.
  { apply nunique_pos. destruct (rows df); [congruence | discriminate]. }
  unfold result in R. rewrite (analyze_conversion_funnel_runs df NE) in R.
  cbn [fst] in R. injection R as <- <-.
  assert (c = stage_sessions stage (rows df)) as ->.
  { unfold funnel_stages_of in I. simpl in I.
    destruct I as [E | [E | [E | [E | []]]]]; inversion E; reflexivity. }
  split.
  { unfold stage_sessions. rewrite <- (len_map _ _ Session_ID).
    apply nunique_le_len. }
  split.
  { unfold stage_sessions, nunique, len. split.
    - intros Z0 e Ie A.
      assert (In (Session_ID e)
                 (unique (map Session_ID
                    (filter (fun e => Action e =? stage)%string (rows df)))))
        as X.
      { apply unique_In, in_map, filter_In. split; [exact Ie|].
        apply String.eqb_eq, A. }
      destruct (unique _); [destruct X | simpl in Z0; lia].
    - intros No.
      destruct (filter (fun e => Action e =? stage)%string (rows df))
        as [|e l] eqn:F; [reflexivity|].
      assert (In e (filter (fun e => Action e =? stage)%string (rows df)))
        as X by (rewrite F; left; reflexivity).
      apply filter_In in X. destruct X as (Ie & A).
      apply String.eqb_eq in A. destruct (No e Ie A). }
  exists (inject_Z (stage_sessions stage (rows df))
          / inject_Z (nunique (map Session_ID (rows df))) * 100)%Q.
  split.
  { exact (in_map (fun sc : string * Z =>
                     (fst sc,
                      (inject_Z (snd sc)
                       / inject_Z (nunique (map Session_ID (rows df)))
                       * 100)%Q)) _ _ I). }
  split; [apply percent_zero, T | apply percent_full, T].
Qed.

Lemma funnel_stage_against_events_witness :
  exists r,
    In ("Purchase", r)
       [("View", 200 # 2); ("Click", 0 # 2); ("Add to Cart", 0 # 2);
        ("Purchase", 100 # 2)]%Q /\
    ((r == 0)%Q <-> 1 = 0).
Proof.
  destruct (funnel_stage_against_events two_sessions _ _ "Purchase" 1 eq_refl)
    as (_ & _ & r & I & Z0 & _).
  - simpl. auto.
  - exists r. split; [exact I | exact Z0].
Defined.



(* ================================================================== *)
(** * analyze_session_metrics *)
(* ================================================================== *)

Lemma group_ends_count (f : string * list Event -> option string)
      (G : list (string * list Event)) :
  (forall g, In g G -> exists p, f g = Some p) ->
  len (dropna (map snd (map (fun g => (fst g, f g)) G))) = len G.
Proof.
  rewrite map_map. cbn [snd]. unfold len. intros A. f_equal.
  induction G as [|g G IH]; [reflexivity|].
  destruct (A g (or_introl eq_refl)) as (p & E).
  cbn [map dropna flat_map]. rewrite E. cbn [app List.length]. f_equal.
  apply IH. intros g' I. apply A. right. exact I.
Qed.

Lemma entry_exit_count (df : list Event) :
  len (dropna (map snd (group_first Page_Type df)))
  = nunique (map Session_ID df) /\
  len (dropna (map snd (group_last Page_Type df)))
  = nunique (map Session_ID df).
Proof.
  rewrite <- (groupby_length Event Session_ID df).
  unfold group_first, group_last.
  split; apply group_ends_count; intros [sid g] I; cbn [snd];
    assert (NE := I); apply groupby_nonempty in NE.
  - destruct g as [|e g]; [congruence|]. simpl.
    exists (Page_Type e). reflexivity.
  - destruct (rev (map Page_Type g)) as [|p r] eqn:R;
      [|simpl; exists p; reflexivity].
    apply (f_equal (@rev string)) in R. rewrite rev_involutive in R.
    destruct g; [congruence | discriminate].
Qed.

Lemma counts_nonneg (K : Type) `{KeyOk K} (l : list K) :
  Forall (fun kv : K * Z => 0 <= snd kv) (value_counts l).
Proof.
  apply Forall_forall. intros [k n] I. simpl.
  apply value_counts_pos in I. lia.
Qed.

(** top_entry_pages, top_exit_pages and depth_distribution are the five,
    five and ten most frequent values: bounded in length, with distinct
    keys, no kept count below a count left out, and counts that add up to at
    most the number of sessions; every session has an entry page, an exit
    page and a depth, so nothing else is lost. *)
Theorem session_metrics_are_top (df : DataFrame) (m : SessionMetrics) :
  result analyze_session_metrics df = inr m ->
  let sessions := nunique (map Session_ID (rows df)) in
  let entries := value_counts (dropna (map snd (group_first Page_Type (rows df)))) in
  let exits := value_counts (dropna (map snd (group_last Page_Type (rows df)))) in
  let depths := value_counts (session_sizes (rows df)) in
  (total entries = sessions /\ total exits = sessions /\
   total depths = sessions) /\
  ((List.length (top_entry_pages m) <= 5)%nat /\
   (List.length (top_exit_pages m) <= 5)%nat /\
   (List.length (depth_distribution m) <= 10)%nat) /\
  (NoDup (map fst (top_entry_pages m)) /\
   NoDup (map fst (top_exit_pages m)) /\
   NoDup (map fst (depth_distribution m))) /\
  (total (top_entry_pages m) <= sessions /\
   total (top_exit_pages m) <= sessions /\
   total (depth_distribution m) <= sessions) /\
  (forall x y, In x (top_entry_pages m) -> In y entries ->
               ~ In y (top_entry_pages m) -> snd y <= snd x) /\
  (forall x y, In x (top_exit_pages m) -> In y exits ->
               ~ In y (top_exit_pages m) -> snd y <= snd x) /\
  (forall x y, In x (depth_distribution m) -> In y depths ->
               ~ In y (depth_distribution m) -> snd y <= snd x).
Proof.
  intros R sessions entries exits depths.
  rewrite analyze_session_metrics_unfold in R. injection R as <-.
  cbn [top_entry_pages top_exit_pages depth_distribution].
  fold entries exits depths.
  destruct (entry_exit_count (rows df)) as (En & Ex).
  destruct (session_sizes_total (rows df)) as (_ & Dp).
  assert (total entries = sessions) as Te
    by (unfold entries; rewrite value_counts_total; exact En).
  assert (total exits = sessions) as Tx
    by (unfold exits; rewrite value_counts_total; exact Ex).
  assert (total depths = sessions) as Td
    by (unfold depths; rewrite value_counts_total; exact Dp).
  split; [auto|].
  split; [repeat split; apply head_length|].
  split; [repeat split; apply NoDup_head_keys, value_counts_keys_NoDup|].
  split.
  { split; [rewrite <- Te | split; [rewrite <- Tx | rewrite <- Td]];
      apply total_head_le;
      (apply (counts_nonneg string) || apply (counts_nonneg Z)). }
  split; [intros x y; apply value_counts_head_top; exact KeyOk_string|].
  split; [intros x y; apply value_counts_head_top; exact KeyOk_string|].
  intros x y; apply value_counts_head_top; exact KeyOk_Z.
Qed.

Lemma session_metrics_are_top_witness :
  exists m,
    result analyze_session_metrics two_sessions = inr m /\
    total (top_entry_pages m) <= 2.
Proof.
  eexists. split; [reflexivity|].
  apply (session_metrics_are_top two_sessions _ eq_refl).
Defined.

(* ================================================================== *)
(** * segment_users *)
(* ================================================================== *)

Lemma filter_swap (A : Type) (p q : A -> bool) (l : list A) :
  filter p (filter q l) = filter q (filter p l).
Proof.
  induction l as [|a l IH]; [reflexivity|]. simpl.
  destruct (q a) eqn:Q, (p a) eqn:P; simpl; rewrite ?Q, ?P, IH; reflexivity.
Qed.

Lemma filter_len_le (A : Type) (p : A -> bool) (l : list A) :
  len (filter p l) <= len l.
Proof. unfold len. apply inj_le, filter_length_le. Qed.

(** The feature table has one row per distinct user; a user's four features
    are sessions, purchases, categories and platforms, each at most the
    number of that user's events and, but for purchases, at least 1; the
    purchases of all users add up to the Purchase events of the table. *)
Theorem user_features_rows (df : DataFrame) :
  let uf := user_features_of (rows df) in
  NoDup (map fst uf) /\
  len uf = nunique (map User_ID (rows df)) /\
  (forall u fs,
     In (u, fs) uf ->
     let mine := filter (fun e => User_ID e =? u)%string (rows df) in
     exists s p c pl,
       fs = [s; p; c; pl] /\
       1 <= s <= len mine /\ 0 <= p <= len mine /\
       1 <= c <= len mine /\ 1 <= pl <= len mine /\
       p = len (filter (fun e => Action e =? "Purchase")%string mine)) /\
  fold_right Z.add 0 (map (fun r => nth 1 (snd r) 0) uf)
  = len (filter (fun e => Action e =? "Purchase")%string (rows df)).
Proof.
  intros uf. unfold uf, user_features_of.
  split; [rewrite map_map; simpl; apply groupby_keys_NoDup|].
  split; [rewrite len_map; apply (groupby_length Event User_ID)|].
  split.
  - intros u fs I.
    set (mine := filter (fun e => User_ID e =? u)%string (rows df)).
    apply in_map_iff in I.
    destruct I as ([u' g] & E & I). simpl in E. inversion E; subst u' fs.
    assert (NE := I). apply groupby_nonempty in NE.
    apply groupby_In in I. destruct I as (Eg & _).
    change (filter (fun a : Event => keqb (User_ID a) u) (rows df))
      with mine in Eg. subst g.
    assert (forall f : Event -> string,
              1 <= nunique (map f mine) <= len mine) as B.
    { intros f. split.
      - apply nunique_pos. destruct mine; [congruence | discriminate].
      - rewrite <- (len_map _ _ f mine). apply nunique_le_len. }
    do 4 eexists. split; [reflexivity|].
    repeat split; try apply B; try apply len_nonneg; try apply filter_len_le.
  - rewrite map_map. cbn [snd nth]. unfold groupby. rewrite map_map.
    cbn [snd].
    erewrite map_ext
      by (intros k; rewrite filter_swap; reflexivity).
    apply (partition_len Event User_ID
             (filter (fun e => Action e =? "Purchase")%string (rows df))).
    + eapply Permutation_NoDup; [apply sort_by_perm | apply unique_NoDup].
    + intros a I. apply filter_In in I.
      apply sort_by_In, unique_In, in_map. tauto.
Qed.

Lemma user_features_rows_witness :
  exists s p c pl,
    [2; 1; 1; 1] = [s; p; c; pl] /\ 1 <= s <= 3 /\ 0 <= p <= 3.
Proof.
  destruct (proj1 (proj2 (proj2 (user_features_rows two_sessions)))
              "U" [2; 1; 1; 1])
    as (s & p & c & pl & E & S & P & _).
  - left. reflexivity.
  - exists s, p, c, pl. auto.
Defined.

Lemma combine_fst_snd (A B : Type) (l : list A) (m : list B) :
  List.length m = List.length l ->
  map fst (combine l m) = l /\ map snd (combine l m) = m.
Proof.
  revert m. induction l as [|a l IH]; intros [|b m] L; try discriminate.
  - split; reflexivity.
  - simpl in L. injection L as L. destruct (IH m L) as (F & S).
    simpl. rewrite F, S. split; reflexivity.
Qed.

Section SegmentLabels.
Variable Scaled : Type.
Variable fit_transform : list (list Z) -> exn + Scaled.
Variable fit_predict : Scaled -> exn + list Z.

End SegmentLabels.


(* ================================================================== *)
(** * analyze_product_sales *)
(* ================================================================== *)

Section ProductSalesFacts.
Variable strftime_Y_m : Z -> string.

Lemma analyze_product_sales_unfold (df : DataFrame) :
  analyze_product_sales strftime_Y_m df
  = (inr (mkProductSales
            (head 10 (sort_values_desc
                        (groupby_size Product_ID
                           (filter (fun e => Action e =? "Purchase")%string
                                   (rows df)))))
            (value_counts
               (map Category
                    (filter (fun e => Action e =? "Purchase")%string (rows df))))
            (sort_index
               (groupby_size (fun m : string => m)
                  (map (fun e => strftime_Y_m (Timestamp e))
                       (filter (fun e => Action e =? "Purchase")%string
                               (rows df)))))
            (value_counts
               (map Platform
                    (filter (fun e => Action e =? "Purchase")%string (rows df))))),
     df).
Proof. reflexivity. Qed.

(** analyze_product_sales leaves the event table as it was (the column Month
    goes to the filtered copy).  Its category, platform and monthly tables
    each add up to the number of Purchase events; top_products holds at most
    ten products, those with the most purchases, each with its number of
    purchases; a month of monthly_sales carries the number of purchases whose
    timestamp formats to it. *)
Theorem product_sales_count_purchases (df : DataFrame) (p : ProductSales) :
  result (analyze_product_sales strftime_Y_m) df = inr p ->
  let purchases :=
    filter (fun e => Action e =? "Purchase")%string (rows df) in
  frame_after (analyze_product_sales strftime_Y_m) df = df /\
  (total (category_sales p) = len purchases /\
   total (platform_sales p) = len purchases /\
   total (monthly_sales p) = len purchases) /\
  ((List.length (top_products p) <= 10)%nat /\
   NoDup (map fst (top_products p)) /\
   total (top_products p) <= len purchases) /\
  (forall k n,
     In (k, n) (top_products p) ->
     1 <= n /\
     n = len (filter (fun e => Product_ID e =? k)%string purchases)) /\
  (forall x y,
     In x (top_products p) -> In y (groupby_size Product_ID purchases) ->
     ~ In y (top_products p) -> snd y <= snd x) /\
  (forall mth n,
     In (mth, n) (monthly_sales p) <->
     n = len (filter (fun e => strftime_Y_m (Timestamp e) =? mth)%string
                     purchases) /\
     exists e, In e purchases /\ strftime_Y_m (Timestamp e) = mth) /\
  (purchases = [] -> p = mkProductSales [] [] [] []).
Proof.
  intros R purchases. unfold result, frame_after in *.
  rewrite analyze_product_sales_unfold in *. cbn [fst snd] in *.
  injection R as <-.
  cbn [top_products category_sales monthly_sales platform_sales].
  fold purchases.
  assert (Forall (fun kv : string * Z => 0 <= snd kv)
                 (sort_values_desc (groupby_size Product_ID purchases))) as P.
  { apply Forall_forall. intros [k n] I. simpl.
    apply sort_by_In in I. apply groupby_size_pos in I. lia. }
  split; [reflexivity|].
  split.
  { rewrite !value_counts_total, !len_map. split; [reflexivity|].
    split; [reflexivity|].
    unfold sort_index. rewrite <- (total_perm _ _ (sort_by_perm _ _ _)).
    rewrite (groupby_size_total string (fun m => m)). apply len_map. }
  split.
  { split; [apply head_length|]. split.
    - apply NoDup_head_keys. unfold sort_values_desc.
      eapply Permutation_NoDup;
        [apply Permutation_map, sort_by_perm | apply groupby_size_keys_NoDup].
    - pose proof (proj1 (total_head_le string 10 _ P)) as Le.
      unfold sort_values_desc in Le at 2.
      rewrite <- (total_perm _ _ (sort_by_perm _
                    (fun a b : string * Z => snd b <=? snd a)
                    (groupby_size Product_ID purchases))) in Le.
      rewrite (groupby_size_total Event Product_ID purchases) in Le.
      exact Le. }
  split.
  { intros k n I. apply head_In, sort_by_In in I.
    split; [exact (groupby_size_pos Event Product_ID purchases k n I)|].
    apply groupby_size_In in I. destruct I as (-> & _). reflexivity. }
  split.
  { intros x y Ix Iy Ny. apply Z.leb_le.
    apply (sorted_split (string * Z) (fun a b => (snd b <=? snd a) = true) 10
             (sort_values_desc (groupby_size Product_ID purchases))).
    - apply (sort_by_sorted (string * Z) _ (desc_total string)
                            (desc_trans string)).
    - exact Ix.
    - apply (sort_by_In _ (fun a b : string * Z => snd b <=? snd a)) in Iy.
      fold (sort_values_desc (groupby_size Product_ID purchases)) in Iy.
      rewrite <- (firstn_skipn 10 (sort_values_desc _)) in Iy.
      apply in_app_or in Iy. destruct Iy as [Iy | Iy]; [destruct (Ny Iy)|].
      exact Iy. }
  split.
  { intros mth n. unfold sort_index. rewrite sort_by_In, groupby_size_In.
    assert (len (filter (fun a : string => keqb a mth)
                        (map (fun e => strftime_Y_m (Timestamp e)) purchases))
            = len (filter (fun e => strftime_Y_m (Timestamp e) =? mth)%string
                          purchases)) as ->.
    { exact (count_map Event (fun e => strftime_Y_m (Timestamp e)) mth
                       purchases). }
    split; intros (-> & X); (split; [reflexivity|]).
    - destruct X as (a & Ia & <-). apply in_map_iff in Ia.
      destruct Ia as (e & E & Ie). eauto.
    - destruct X as (e & Ie & <-). exists (strftime_Y_m (Timestamp e)).
      split; [|reflexivity].
      apply (in_map (fun e => strftime_Y_m (Timestamp e))). exact Ie. }
  intros E. rewrite E. reflexivity.
Qed.
End ProductSalesFacts.

Lemma product_sales_count_purchases_witness :
  exists p,
    result (analyze_product_sales (fun _ => "1970-01")) two_sessions = inr p /\
    total (monthly_sales p) = 1 /\ total (category_sales p) = 1.
Proof.
  eexists. split; [reflexivity|].
  destruct (product_sales_count_purchases (fun _ => "1970-01") two_sessions
              _ eq_refl) as (_ & (C & _ & M) & _).
  split; [exact M | exact C].
Defined.

(* ================================================================== *)
(** * More on the loader and the upload handler *)
(* ================================================================== *)

Section LoaderMore.
Variable File : Type.
Variable read_csv : File -> exn + Frame.
Variable to_datetime : list cell -> exn + list Z.

Local Abbreviation load := (load_and_validate_data File read_csv to_datetime).
Local Abbreviation handler := (upload_handler File read_csv to_datetime).

(** A table returned by the loader has all nine required columns, the
    columns of the parsed file in the same order, and a Timestamp column
    of parsed instants only. *)
Theorem loaded_table_has_required_columns (file : File) (df : Frame) :
  fst (load file) = Some df ->
  snd (load file) = None /\
  (forall col, In col required_columns -> In col (map fst df)) /\
  (exists raw, read_csv file = inr raw /\ map fst df = map fst raw) /\
  exists ts, lookup "Timestamp" df = Some ts /\
             forall c, In c ts -> exists ns, c = CTime ns.
Proof.
  intros S.
  destruct (load_cases File read_csv to_datetime file)
    as [(e & L & _) | [(L & _) | (raw & ts & t & R & All & Lk & T & L)]];
    rewrite L in S |- *; simpl in S; try discriminate.
  inversion S; subst df. cbn [snd].
  assert (map fst (dict_set "Timestamp" (map CTime t) raw) = map fst raw) as K.
  { apply dict_set_keys, All. simpl. auto. }
  split; [reflexivity|].
  split; [intros col I; rewrite K; apply All, I|].
  split; [exists raw; auto|].
  exists (map CTime t). split; [apply lookup_dict_set|].
  intros c I. apply in_map_iff in I. destruct I as (ns & <- & _). eauto.
Qed.

End LoaderMore.

Lemma loaded_table_has_required_columns_witness :
  snd (load_and_validate_data (option Frame) sample_read_csv
         sample_to_datetime complete_file)
  = None.
Proof.
  apply (proj1 (loaded_table_has_required_columns (option Frame)
                  sample_read_csv sample_to_datetime complete_file _ eq_refl)).
Defined.


(* ================================================================== *)
(** * avg_time_by_page *)
(* ================================================================== *)

Lemma Qsum_le_bound (B : Q) (l : list Q) :
  Forall (fun q => (q <= B)%Q) l -> (Qsum l <= inject_Z (len l) * B)%Q.
Proof.
  induction 1 as [|q l P F IH].
  - simpl. unfold len. simpl. rewrite Qmult_0_l. apply Qle_refl.
  - cbn [Qsum fold_right]. fold (Qsum l).
    assert (inject_Z (len (q :: l)) == 1 + inject_Z (len l))%Q as ->.
    { unfold len. cbn [List.length]. rewrite Nat2Z.inj_succ.
      unfold Z.succ. rewrite inject_Z_plus. simpl. ring. }
    rewrite Qmult_plus_distr_l, Qmult_1_l.
    apply Qplus_le_compat; assumption.
Qed.

Lemma span_within (ts all : list Z) :
  ts <> [] -> incl ts all ->
  exists q B, span_seconds ts = Fl q /\ span_seconds all = Fl B /\
              (0 <= q <= B)%Q.
Proof.
  intros NE Inc.
  destruct ts as [|t r]; [congruence|].
  destruct all as [|a s]; [destruct (Inc t (or_introl eq_refl))|].
  do 2 eexists. split; [reflexivity|]. split; [reflexivity|].
  destruct (fold_max_spec r t) as (MI & _).
  destruct (fold_min_spec r t) as (mI & mB).
  destruct (fold_max_spec s a) as (_ & AB).
  destruct (fold_min_spec s a) as (_ & aB).
  pose proof (mB _ MI). pose proof (AB _ (Inc _ MI)).
  pose proof (aB _ (Inc _ mI)).
  unfold Qle. simpl. lia.
Qed.

Lemma mean_spans_within (all : list Z) (B : Q)
      (G : list (string * list Event)) :
  G <> [] -> span_seconds all = Fl B ->
  (forall g, In g G -> snd g <> [] /\ incl (map Timestamp (snd g)) all) ->
  exists q,
    mean (map (fun g => span_seconds (map Timestamp (snd g))) G) = Fl q /\
    (0 <= q <= B)%Q.
Proof.
  intros NE SB A.
  assert (exists x r,
            numbers (map (fun g => span_seconds (map Timestamp (snd g))) G)
            = x :: r /\
            Forall (fun q => (0 <= q <= B)%Q) (x :: r)) as (x & r & N & F).
  { assert (Forall (fun q => (0 <= q <= B)%Q)
              (numbers (map (fun g => span_seconds (map Timestamp (snd g))) G))
            /\ List.length
                 (numbers (map (fun g => span_seconds (map Timestamp (snd g))) G))
               = List.length G) as (F & L).
    { clear NE. induction G as [|g G IH]; [split; [constructor | reflexivity]|].
      destruct (A g (or_introl eq_refl)) as (Ng & Ig).
      destruct (span_within (map Timestamp (snd g)) all) as (q & B' & E & EB & Q).
      { destruct (snd g); [congruence | discriminate]. }
      { exact Ig. }
      rewrite SB in EB. injection EB as <-.
      destruct IH as (F & L); [intros g' I; apply A; right; exact I|].
      cbn [map numbers]. rewrite E. split.
      - constructor; assumption.
      - cbn [List.length]. rewrite L. reflexivity. }
    destruct (numbers _) as [|x r]; [|eauto].
    destruct G; [congruence | discriminate]. }
  unfold mean. rewrite N. eexists. split; [reflexivity|].
  assert (0 < inject_Z (len (x :: r)))%Q as Pos.
  { unfold len, Qlt. simpl. lia. }
  split.
  - apply Qle_shift_div_l; [exact Pos|]. rewrite Qmult_0_l.
    apply Qsum_nonneg. eapply Forall_impl; [|exact F]. intros q Q. apply Q.
  - apply Qle_shift_div_r; [exact Pos|]. rewrite Qmult_comm.
    apply Qsum_le_bound. eapply Forall_impl; [|exact F]. intros q Q. apply Q.
Qed.


